(** * magda-auth-okta: the OIDC login / logout router

    A shallow embedding of [createAuthPluginRouter.ts] (the Okta
    authentication plugin of Magda) and the properties of its redirect,
    session and configuration handling.  The repository holds two
    copies of the file: the one with the logout routes is embedded in
    full (section [Router]), of the earlier one the client
    construction (module [Legacy]).

    The router talks to three libraries that are not part of the
    repository: the Magda authentication plugin SDK, [openid-client]
    and [passport].  Their functions are the fields of the classes
    [PluginSdk] and [OidcLibrary] below, so every general theorem holds
    for whatever these libraries compute; calls whose effect is a
    response or a session change are recorded in an event trace.
    [console.log] calls are not part of the model. *)

From Stdlib Require Import ZArith Lia Ascii String DecimalString.
From stdpp Require Import base strings list option gmap.

Local Open Scope string_scope.
Local Open Scope Z_scope.

(** ** JavaScript values used by the router *)

Module Js.

(** A JavaScript [number] as the configuration can hold it. *)
Inductive number : Type :=
| Num (z : Z)
| NaN.

(** A configuration value as it arrives at run time: the TypeScript
    type says [string], the guards of the router test more. *)
Inductive value : Type :=
| Undefined
| Null
| Str (s : string)
| Number (n : number)
| Bool (b : bool).

Definition truthy_string (s : string) : bool :=
  match s with
  | EmptyString => false
  | String _ _ => true
  end.

Definition truthy_number (n : number) : bool :=
  match n with
  | Num z => negb (z =? 0)
  | NaN => false
  end.

(** ToBoolean. *)
Definition truthy (v : value) : bool :=
  match v with
  | Undefined | Null => false
  | Str s => truthy_string s
  | Number n => truthy_number n
  | Bool b => b
  end.

(** [typeof v === "string"]. *)
Definition is_string (v : value) : bool :=
  match v with
  | Str _ => true
  | _ => false
  end.

(** ToString, as string concatenation applies it. *)
Definition to_string (v : value) : string :=
  match v with
  | Undefined => "undefined"
  | Null => "null"
  | Str s => s
  | Number (Num z) => NilZero.string_of_int (Z.to_int z)
  | Number NaN => "NaN"
  | Bool true => "true"
  | Bool false => "false"
  end.

(** [x || d] for an optional number ([None] is [undefined]). *)
Definition number_or (x : option number) (d : number) : number :=
  match x with
  | Some n => if truthy_number n then n else d
  | None => d
  end.

(** [s.substr(start)]: a negative start counts from the end and is
    clamped at 0; the result runs to the end of the string. *)
Definition substr (s : string) (start : Z) : string :=
  let len := Z.of_nat (String.length s) in
  let from := if start <? 0 then Z.max (len + start) 0 else Z.min start len in
  String.substring (Z.to_nat from) (Z.to_nat (len - from)) s.

(** [s.split(" ")[0]]: the text before the first space. *)
Fixpoint split_space_first (s : string) : string :=
  match s with
  | EmptyString => EmptyString
  | String c rest =>
      if Ascii.eqb c " "%char then EmptyString
      else String c (split_space_first rest)
  end.

End Js.

(** ** Data of the router *)

Record Error : Type := mkError { message : string }.

(** The token set returned by the provider's token endpoint. *)
Record TokenSet : Type := mkTokenSet {
  access_token : option string;
  id_token : option string;
  refresh_token : option string
}.

(** The claims the provider asserts about the user ([profile: any]). *)
Record Claims : Type := mkClaims {
  sub : option string;
  name : option string;
  family_name : option string;
  given_name : option string;
  email : option string
}.

(** [passport.Profile] as the verify callback fills it. *)
Record Profile : Type := mkProfile {
  profile_id : option string;
  provider : string;
  displayName : option string;
  familyName : option string;
  givenName : option string;
  emails : list string
}.

(** [AuthPluginConfig] with the merged [explicitLogout] flag; the
    router reads these two fields only. *)
Record AuthPluginConfig : Type := mkAuthPluginConfig {
  key : string;
  explicitLogout : bool
}.

(** The provider marker stored with the session. *)
Record AuthPluginData : Type := mkAuthPluginData {
  plugin_key : string;
  tokenSet : option TokenSet;
  logoutUrl : option string
}.

(** What [createOrGetUserToken] resolves to. *)
Record UserToken : Type := mkUserToken { user_id : string }.

(** The value handed to [done(null, ...)] and kept as [req.user]:
    [{...userToken, authPlugin: authPluginData}]. *)
Record SessionUser : Type := mkSessionUser {
  userToken : UserToken;
  authPlugin : option AuthPluginData
}.

Record CookieOptions : Type := mkCookieOptions { cookie_name : string }.

(** The authorization API client: what it answers for a profile and a
    plugin key. *)
Definition ApiClient : Type := Profile -> string -> Error + UserToken.

(** A parsed query parameter (express uses [qs]). *)
Inductive QueryValue : Type :=
| QString (s : string)
| QArray (items : list string)
| QObject (fields : list (string * string)).

Record Request : Type := mkRequest {
  query : gmap string QueryValue
}.

(** Options of an outbound HTTP request ([OpenIdClient.HttpOptions]). *)
Module Http.

Inductive header : Type :=
| HString (s : string)
| HList (items : list string).

Record options : Type := mkOptions {
  headers : option (gmap string header);
  timeout : option Js.number
}.

Definition empty : options := {| headers := None; timeout := None |}.

End Http.

(** [new iss.Client({client_id, client_secret, redirect_uris})]. *)
Record ClientMetadata : Type := mkClientMetadata {
  client_id : Js.value;
  client_secret : Js.value;
  redirect_uris : list string
}.

(** The provider's discovery document. *)
Record IssuerMetadata : Type := mkIssuerMetadata {
  issuer_name : string;
  authorization_endpoint : string;
  token_endpoint : string;
  end_session_endpoint : option string
}.

(** The client object: its metadata and the two [custom] slots the
    router sets on it. *)
Record Client : Type := mkClient {
  client_issuer : IssuerMetadata;
  metadata : ClientMetadata;
  http_options : option Http.options -> Http.options;
  clock_tolerance : Js.number
}.

Record EndSessionParams : Type := mkEndSessionParams {
  id_token_hint : TokenSet;
  post_logout_redirect_uri : string
}.

(** The second argument of [passport.authenticate]. *)
Record AuthenticateOptions : Type := mkAuthenticateOptions {
  opt_scope : option string;
  opt_state : option string;
  failWithError : bool
}.

Record AuthPluginRouterOptions : Type := mkOptions {
  authorizationApi : ApiClient;
  issuer : Js.value;
  clientId : Js.value;
  clientSecret : Js.value;
  externalUrl : string;
  authPluginRedirectUrl : string;
  authPluginConfig : AuthPluginConfig;
  timeout : option Js.number;
  maxClockSkew : option Js.number;
  scope : option string;
  sessionCookieOptions : CookieOptions
}.

(** ** The libraries the router calls *)

(** [@magda/authentication-plugin-sdk]. *)
Class PluginSdk : Type := {
  (** [getAbsoluteUrl(url, baseUrl, optionalQueries)]; the base may be
      [undefined], the queries may be left out ([[]]). *)
  getAbsoluteUrl : string -> option string -> list (string * string) -> string;
  (** [createOrGetUserToken(authorizationApi, profile, key)]: resolves
      or rejects. *)
  createOrGetUserToken : ApiClient -> Profile -> string -> Error + UserToken;
  (** What [req.user] holds once [destroyMagdaSession] has run. *)
  userAfterDestroy : option SessionUser -> option SessionUser
}.

(** [openid-client]. *)
Class OidcLibrary : Type := {
  (** [Issuer.discover(url)]: the metadata document or a rejection. *)
  discover : string -> Error + IssuerMetadata;
  (** [client.endSessionUrl(params)]. *)
  endSessionUrl : Client -> EndSessionParams -> string
}.

(** [package.json], [process.versions.node], [os.platform()] and
    [os.release()]. *)
Class Runtime : Type := {
  node_version : string;
  os_platform : string;
  os_release : string
}.

Module pkg.
Definition name : string := "magda-auth-okta".
Definition version : string := "1.1.1".
End pkg.

Definition OKTA_DEFAULT_TIMEOUT : Js.number := Js.Num 10000.
Definition OKTA_DEFAULT_MAX_CLOCK_SKEW : Js.number := Js.Num 120.
Definition STRATEGY_NAME : string := "okta-oidc".
Definition DEFAULT_SCOPE : string := "openid profile email".

(** ** Effects: the session, the request's user and the calls made *)

Inductive Event : Type :=
| EvDiscover (url : string)
| EvPassportUse (strategy : string)
| EvAuthenticate (strategy : string) (opts : AuthenticateOptions)
| EvCreateOrGetUserToken (userData : Profile) (plugin : string)
| EvLogIn (user : SessionUser)
| EvDestroyMagdaSession (cookie : CookieOptions)
| EvRedirect (url : string)
| EvRedirectOnSuccess (toURL : option QueryValue)
| EvRedirectOnError (err : Error) (toURL : option QueryValue).

Record State : Type := mkState {
  (** the session the store holds for this browser *)
  store : option SessionUser;
  (** [req.user] *)
  user : option SessionUser;
  (** [Issuer[custom.http_options]], a global of the library *)
  Issuer_http_options : option (option Http.options -> Http.options);
  (** the calls made so far, oldest first *)
  trace : list Event
}.

(** A computation that may throw (or reject). *)
Definition M (A : Type) : Type := State -> (Error + A) * State.

Definition ret {A : Type} (a : A) : M A := fun st => (inr a, st).

Definition throw {A : Type} (e : Error) : M A := fun st => (inl e, st).

Definition bind {A B : Type} (m : M A) (k : A -> M B) : M B :=
  fun st =>
    match m st with
    | (inl e, st') => (inl e, st')
    | (inr a, st') => k a st'
    end.

Definition try_catch {A : Type} (m : M A) (handler : Error -> M A) : M A :=
  fun st =>
    match m st with
    | (inl e, st') => handler e st'
    | (inr a, st') => (inr a, st')
    end.

Definition emit (e : Event) : M unit :=
  fun st =>
    (inr tt, {| store := store st; user := user st;
                Issuer_http_options := Issuer_http_options st;
                trace := trace st ++ [e] |}).

Definition get_user : M (option SessionUser) := fun st => (inr (user st), st).

Notation "x <- m ;; k" := (bind m (fun x => k))
  (at level 100, m at next level, right associativity).
Notation "m ;;; k" := (bind m (fun _ => k))
  (at level 100, right associativity).

(** ** The router: [createAuthPluginRouter.ts], the copy with the
    logout routes *)

Section Router.
Context `{PluginSdk} `{OidcLibrary} `{Runtime}.

(** [customizeUserAgent(options)] *)
Definition customizeUserAgent (options : option Http.options) : Http.options :=
  let options := default Http.empty options in
  let headers := default ∅ (Http.headers options) in
  let clientUserAgent :=
    match headers !! "User-Agent" with
    | Some (Http.HString ua) => " " +:+ Js.split_space_first ua
    | _ => ""
    end in
  let userAgent :=
    pkg.name +:+ "/" +:+ pkg.version +:+ clientUserAgent +:+ " node/"
      +:+ node_version +:+ " " +:+ os_platform +:+ "/" +:+ os_release in
  {| Http.headers := Some (<["User-Agent" := Http.HString userAgent]> headers);
     Http.timeout := Http.timeout options |}.

(** The argument of [Issuer.discover] in [createOpenIdClient]. *)
Definition discoveryUrl (issuer : string) : string :=
  issuer
    +:+ (if String.eqb (Js.substr issuer (Z.of_nat (String.length issuer) - 1)) "/"
         then "" else "/")
    +:+ ".well-known/openid-configuration".

(** [Issuer.discover(url)], recorded. *)
Definition Issuer_discover (url : string) : M IssuerMetadata :=
  emit (EvDiscover url) ;;;
  match discover url with
  | inl e => throw e
  | inr iss => ret iss
  end.

(** [Issuer[custom.http_options] = hook]. *)
Definition set_Issuer_http_options
    (hook : option Http.options -> Http.options) : M unit :=
  fun st =>
    (inr tt, {| store := store st; user := user st;
                Issuer_http_options := Some hook; trace := trace st |}).

(** [options.issuer] where the code uses it as a string: a method
    call on anything else is a [TypeError]. *)
Definition issuer_string (options : AuthPluginRouterOptions) : M string :=
  match issuer options with
  | Js.Str s => ret s
  | _ => throw (mkError "TypeError: options.issuer.substr is not a function")
  end.

(** [createOpenIdClient(options)] *)
Definition createOpenIdClient (options : AuthPluginRouterOptions) : M Client :=
  let externalUrl := externalUrl options in
  let loginBaseUrl := getAbsoluteUrl "/auth/login/plugin" (Some externalUrl) [] in
  set_Issuer_http_options (fun opts =>
    let opts := customizeUserAgent opts in
    {| Http.headers := Http.headers opts;
       Http.timeout := Some (Js.number_or (timeout options) OKTA_DEFAULT_TIMEOUT) |}) ;;;
  issuer <- issuer_string options ;;
  iss <- Issuer_discover (discoveryUrl issuer) ;;
  ret {| client_issuer := iss;
         metadata :=
           {| client_id := clientId options;
              client_secret := clientSecret options;
              redirect_uris := [getAbsoluteUrl "/okta/return" (Some loginBaseUrl) []] |};
         (* the parameter of this arrow function is named [options] too *)
         http_options := fun options =>
           let options := customizeUserAgent options in
           {| Http.headers := Http.headers options;
              Http.timeout :=
                Some (Js.number_or (Http.timeout options) OKTA_DEFAULT_TIMEOUT) |};
         clock_tolerance :=
           match maxClockSkew options with
           | None => OKTA_DEFAULT_MAX_CLOCK_SKEW
           | Some skew => skew
           end |}.

(** [determineRedirectUrl(req, authPluginRedirectUrl, externalUrl?)] *)
Definition determineRedirectUrl (req : Request)
    (authPluginRedirectUrl : string) (externalUrl : option string) : string :=
  let resultRedirectionUrl := getAbsoluteUrl authPluginRedirectUrl externalUrl [] in
  match query req !! "redirect" with
  | Some (QString redirect) =>
      if Js.truthy_string redirect
      then getAbsoluteUrl redirect externalUrl []
      else resultRedirectionUrl
  | _ => resultRedirectionUrl
  end.

(** What the verify callback passes to [done]. *)
Inductive Done : Type :=
| DoneError (err : Error)
| DoneUser (user : SessionUser).

(** [await createOrGetUserToken(authorizationApi, userData, key)],
    recorded. *)
Definition call_createOrGetUserToken (api : ApiClient) (userData : Profile)
    (plugin : string) : M UserToken :=
  emit (EvCreateOrGetUserToken userData plugin) ;;;
  match createOrGetUserToken api userData plugin with
  | inl e => throw e
  | inr token => ret token
  end.

(** [profile?.email], truthy. *)
Definition profile_email (profile : option Claims) : option string :=
  match profile with
  | Some claims =>
      match email claims with
      | Some address => if Js.truthy_string address then Some address else None
      | None => None
      end
  | None => None
  end.

(** The verify callback of the strategy. *)
Definition verify (options : AuthPluginRouterOptions)
    (tokenSet : TokenSet) (profile : option Claims) : M Done :=
  let authorizationApi := authorizationApi options in
  let authPluginConfig := authPluginConfig options in
  match profile_email profile with
  | None =>
      ret (DoneError
             (mkError "Cannot locate email address from the user profile."))
  | Some address =>
      let userData :=
        {| profile_id := profile ≫= sub;
           provider := key authPluginConfig;
           displayName := profile ≫= name;
           familyName := profile ≫= family_name;
           givenName := profile ≫= given_name;
           emails := [address] |} in
      try_catch
        (userToken <- call_createOrGetUserToken authorizationApi userData
                        (key authPluginConfig) ;;
         let authPluginData :=
           {| plugin_key := key authPluginConfig;
              tokenSet := Some tokenSet;
              logoutUrl :=
                if explicitLogout authPluginConfig
                then Some ("/auth/plugin/" +:+ key authPluginConfig +:+ "/logout")
                else None |} in
         ret (DoneUser {| userToken := userToken;
                          authPlugin := Some authPluginData |}))
        (fun error => ret (DoneError error))
  end.

(** Modelled from the spec: [destroyMagdaSession] belongs to the SDK,
    which is not part of the repository.  The spec gives the session
    store [destroy(request, response, cookieOptions) -> void], "safe to
    call with no active session": the stored session is gone
    afterwards, nothing is thrown; what is left in [req.user] is the
    SDK's [userAfterDestroy]. *)
Definition destroyMagdaSession (cookie : CookieOptions) : M unit :=
  emit (EvDestroyMagdaSession cookie) ;;;
  fun st =>
    (inr tt, {| store := None; user := userAfterDestroy (user st);
                Issuer_http_options := Issuer_http_options st;
                trace := trace st |}).

(** Modelled from the spec: session establishment belongs to passport
    and the session store ([establish(sessionPayload, cookieOptions)]):
    the record handed over becomes the session and [req.user]. *)
Definition logIn (u : SessionUser) : M unit :=
  emit (EvLogIn u) ;;;
  fun st =>
    (inr tt, {| store := Some u; user := Some u;
                Issuer_http_options := Issuer_http_options st;
                trace := trace st |}).

(** The provider's answer to the code exchange: a rejection, or the
    token set and the claims. *)
Definition Exchange : Type := Error + (TokenSet * option Claims).

(** Modelled from the spec: [passport.authenticate(STRATEGY_NAME,
    {failWithError: true})] on the provider's callback belongs to
    passport and [openid-client].  The spec's Complete transition:
    the code is exchanged; a failed exchange is an error of the
    attempt; otherwise the verify callback runs, [done(err)] is an
    error of the attempt and [done(null, user)] hands the record to
    session establishment.  With [failWithError] an error goes to the
    route's error handler. *)
Definition authenticate_callback (options : AuthPluginRouterOptions)
    (exchange : Exchange) : M unit :=
  emit (EvAuthenticate STRATEGY_NAME
          {| opt_scope := None; opt_state := None; failWithError := true |}) ;;;
  match exchange with
  | inl err => throw err
  | inr (tokenSet, profile) =>
      result <- verify options tokenSet profile ;;
      match result with
      | DoneError err => throw err
      | DoneUser u => logIn u
      end
  end.

(** The value the constructor returns: the routes close over
    [options], [scope] and [client]. *)
Record Router : Type := mkRouter {
  router_options : AuthPluginRouterOptions;
  router_scope : string;
  router_client : Client
}.

(** [router.get("/", ...)] *)
Definition get_root (r : Router) (req : Request) : M unit :=
  let options := router_options r in
  let opts :=
    {| opt_scope := Some (router_scope r);
       opt_state :=
         Some (determineRedirectUrl req (authPluginRedirectUrl options)
                 (Some (externalUrl options)));
       failWithError := false |} in
  emit (EvAuthenticate STRATEGY_NAME opts).

(** [router.get("/return", ...)]: the authenticating middleware, then
    the success handler, or the error handler when [next(err)] was
    called. *)
Definition get_return (r : Router) (req : Request) (exchange : Exchange) : M unit :=
  try_catch
    (authenticate_callback (router_options r) exchange ;;;
     emit (EvRedirectOnSuccess (query req !! "state")))
    (fun err => emit (EvRedirectOnError err (query req !! "state"))).

(** [router.get("/logout", ...)] *)
Definition get_logout (r : Router) (req : Request) : M unit :=
  let options := router_options r in
  let client := router_client r in
  u <- get_user ;;
  let tokenSet := (u ≫= authPlugin) ≫= tokenSet in
  destroyMagdaSession (sessionCookieOptions options) ;;;
  match tokenSet with
  | None =>
      emit (EvRedirect
              (determineRedirectUrl req (authPluginRedirectUrl options)
                 (Some (externalUrl options))))
  | Some tokenSet =>
      let redirectUrl :=
        determineRedirectUrl req (authPluginRedirectUrl options) None in
      emit (EvRedirect
              (endSessionUrl client
                 {| id_token_hint := tokenSet;
                    post_logout_redirect_uri :=
                      getAbsoluteUrl
                        ("/auth/plugin/" +:+ key (authPluginConfig options)
                           +:+ "/logout/return")
                        (Some (externalUrl options))
                        [("redirect", redirectUrl)] |}))
  end.

(** [router.get("/logout/return", ...)] *)
Definition get_logout_return (r : Router) (req : Request) : M unit :=
  let options := router_options r in
  u <- get_user ;;
  match u with
  | Some _ => destroyMagdaSession (sessionCookieOptions options)
  | None => ret tt
  end ;;;
  emit (EvRedirect
          (determineRedirectUrl req (authPluginRedirectUrl options)
             (Some (externalUrl options)))).

(** [createAuthPluginRouter(options)] *)
Definition createAuthPluginRouter (options : AuthPluginRouterOptions) : M Router :=
  let scope :=
    match scope options with
    | Some s => if Js.truthy_string s then s else DEFAULT_SCOPE
    | None => DEFAULT_SCOPE
    end in
  if negb (Js.truthy (clientId options)) then
    throw (mkError "Required client id can't be empty!")
  else if negb (Js.truthy (clientSecret options)) then
    throw (mkError "Required client secret can't be empty!")
  else if negb (Js.truthy (issuer options)) || negb (Js.is_string (issuer options)) then
    throw (mkError
             "Required issuer url (options.issuer) can't be empty and must be a string!")
  else
    client <- createOpenIdClient options ;;
    emit (EvPassportUse STRATEGY_NAME) ;;;
    ret {| router_options := options; router_scope := scope; router_client := client |}.

(** The four endpoints of the router. *)
Inductive Endpoint : Type :=
| Initiate
| Complete (exchange : Exchange)
| LogoutInitiate
| LogoutReturn.

Definition path (e : Endpoint) : string :=
  match e with
  | Initiate => "/"
  | Complete _ => "/return"
  | LogoutInitiate => "/logout"
  | LogoutReturn => "/logout/return"
  end.

Definition handle (r : Router) (e : Endpoint) (req : Request) : M unit :=
  match e with
  | Initiate => get_root r req
  | Complete exchange => get_return r req exchange
  | LogoutInitiate => get_logout r req
  | LogoutReturn => get_logout_return r req
  end.

(** A request arrives: the session middleware has loaded [req.user]
    from the session, nothing has been called yet. *)
Definition arrive (session : option SessionUser) : State :=
  {| store := session; user := session; Issuer_http_options := None; trace := [] |}.

(** The process starts: no session, nothing called. *)
Definition boot : State := arrive None.

End Router.

(** ** The earlier copy of the file, [src/createAuthPluginRouter.ts]

    It has the login routes only; its client construction differs from
    the one above in how the discovery and redirect URLs are built. *)

Module Legacy.
Section Client.
Context `{OidcLibrary} `{Runtime}.

(** The argument of [Issuer.discover]: [options.issuer +
    "/.well-known/openid-configuration"]. *)
Definition discoveryUrl (issuer : string) : string :=
  issuer +:+ "/.well-known/openid-configuration".

(** [createOpenIdClient(options)] *)
Definition createOpenIdClient (options : AuthPluginRouterOptions) : M Client :=
  let externalUrl := externalUrl options in
  let loginBaseUrl := externalUrl +:+ "/auth/login/plugin" in
  set_Issuer_http_options (fun opts =>
    let opts := customizeUserAgent opts in
    {| Http.headers := Http.headers opts;
       Http.timeout := Some (Js.number_or (timeout options) OKTA_DEFAULT_TIMEOUT) |}) ;;;
  iss <- Issuer_discover (discoveryUrl (Js.to_string (issuer options))) ;;
  ret {| client_issuer := iss;
         metadata :=
           {| client_id := clientId options;
              client_secret := clientSecret options;
              redirect_uris := [loginBaseUrl +:+ "/okta/return"] |};
         http_options := fun options =>
           let options := customizeUserAgent options in
           {| Http.headers := Http.headers options;
              Http.timeout :=
                Some (Js.number_or (Http.timeout options) OKTA_DEFAULT_TIMEOUT) |};
         clock_tolerance :=
           match maxClockSkew options with
           | None => OKTA_DEFAULT_MAX_CLOCK_SKEW
           | Some skew => skew
           end |}.

End Client.
End Legacy.

(** ** The statements of the specification, in its own words *)

Section SpecRule.
Context `{PluginSdk} `{OidcLibrary}.

(** "If the redirect query parameter is present as a non-empty string,
    the destination is that value resolved to an absolute URL against
    the external base URL; otherwise it is the configured default
    destination resolved against the external base URL." *)
Definition spec_destination (options : AuthPluginRouterOptions) (req : Request) : string :=
  match query req !! "redirect" with
  | Some (QString (String c rest)) =>
      getAbsoluteUrl (String c rest) (Some (externalUrl options)) []
  | _ => getAbsoluteUrl (authPluginRedirectUrl options) (Some (externalUrl options)) []
  end.

(** The call that hands a destination [d] on, endpoint by endpoint;
    [session] is the session the request arrives with. *)
Definition hands_on (r : Router) (e : Endpoint) (session : option SessionUser)
    (d : string) : list Event :=
  let options := router_options r in
  match e with
  | Initiate =>
      [EvAuthenticate STRATEGY_NAME
         {| opt_scope := Some (router_scope r); opt_state := Some d;
            failWithError := false |}]
  | Complete _ => [EvRedirectOnSuccess (Some (QString d))]
  | LogoutInitiate =>
      match (session ≫= authPlugin) ≫= tokenSet with
      | None => [EvRedirect d]
      | Some hint =>
          [EvRedirect
             (endSessionUrl (router_client r)
                {| id_token_hint := hint;
                   post_logout_redirect_uri :=
                     getAbsoluteUrl
                       ("/auth/plugin/" +:+ key (authPluginConfig options)
                          +:+ "/logout/return")
                       (Some (externalUrl options)) [("redirect", d)] |})]
      end
  | LogoutReturn => [EvRedirect d]
  end.

(** An issuer URL without its trailing slash, if it has one. *)
Fixpoint without_trailing_slash (issuer : string) : string :=
  match issuer with
  | EmptyString => EmptyString
  | String c EmptyString => if Ascii.eqb c "/"%char then EmptyString else issuer
  | String c rest => String c (without_trailing_slash rest)
  end.

(** "<externalUrl>/auth/login/plugin/<pluginKey>/return" *)
Definition spec_redirect_uri (options : AuthPluginRouterOptions) : string :=
  externalUrl options +:+ "/auth/login/plugin/" +:+ key (authPluginConfig options)
    +:+ "/return".

(** The errors of the configuration guard. *)
Definition ConfigurationError (err : Error) : Prop :=
  err = mkError "Required client id can't be empty!"
  \/ err = mkError "Required client secret can't be empty!"
  \/ err = mkError
             "Required issuer url (options.issuer) can't be empty and must be a string!".

(** A configuration value that is missing or empty. *)
Definition missing_or_empty (v : Js.value) : Prop :=
  v = Js.Undefined \/ v = Js.Null \/ v = Js.Str "".

(** A configuration value that is a non-empty string. *)
Definition present (v : Js.value) : Prop :=
  exists s, v = Js.Str s /\ s <> "".

End SpecRule.

(** ** A concrete deployment, for evaluating the router *)

Module Deployment.

(** [?k=v&k=v], unescaped. *)
Fixpoint render_queries (sep : string) (queries : list (string * string)) : string :=
  match queries with
  | [] => ""
  | (k, v) :: rest => sep +:+ k +:+ "=" +:+ v +:+ render_queries "&" rest
  end.

(** Modelled from the spec: [getAbsoluteUrl] belongs to the SDK, which
    is not part of the repository.  The spec has a redirect parameter
    "resolved to an absolute URL against the system's external base
    URL" ("/dashboard" with base "https://example.org" gives
    "https://example.org/dashboard") and a post-logout callback that
    "embeds the ultimate destination as a query parameter".  Here a
    URL that names a scheme is kept, any other is appended to the base
    (nothing when the base is absent), and the queries follow. *)
Definition resolve (url : string) (baseUrl : option string)
    (queries : list (string * string)) : string :=
  match String.index 0 "://" url with
  | Some _ => url +:+ render_queries "?" queries
  | None => default "" baseUrl +:+ url +:+ render_queries "?" queries
  end.

(** The SDK of the deployment: the resolver asks the authorization
    API, and nothing is left in [req.user] after a destroy. *)
#[export] Instance sdk : PluginSdk := {|
  getAbsoluteUrl := resolve;
  createOrGetUserToken := fun api userData plugin => api userData plugin;
  userAfterDestroy := fun _ => None
|}.

Definition idp : IssuerMetadata :=
  {| issuer_name := "https://dev-1.okta.com/oauth2/default";
     authorization_endpoint := "https://dev-1.okta.com/oauth2/default/v1/authorize";
     token_endpoint := "https://dev-1.okta.com/oauth2/default/v1/token";
     end_session_endpoint := Some "https://dev-1.okta.com/oauth2/default/v1/logout" |}.

(** Modelled from the spec: [endSessionUrl] belongs to
    [openid-client]; it "constructs the provider's end-session
    redirect target, passing the prior id token as a hint and a
    post-logout callback URL".  Discovery answers with [idp]. *)
Definition end_session_url (client : Client) (params : EndSessionParams) : string :=
  default "" (end_session_endpoint (client_issuer client))
    +:+ "?id_token_hint=" +:+ default "" (id_token (id_token_hint params))
    +:+ "&post_logout_redirect_uri=" +:+ post_logout_redirect_uri params.

#[export] Instance oidc : OidcLibrary := {|
  discover := fun _ => inr idp;
  endSessionUrl := end_session_url
|}.

#[export] Instance runtime : Runtime := {|
  node_version := "12.22.12";
  os_platform := "linux";
  os_release := "5.4.0"
|}.

(** The authorization API knows every user. *)
Definition api : ApiClient := fun _ _ => inr {| user_id := "u-1" |}.

Definition options (plugin : string) (explicit : bool) : AuthPluginRouterOptions :=
  {| authorizationApi := api;
     issuer := Js.Str "https://dev-1.okta.com/oauth2/default";
     clientId := Js.Str "0oa1";
     clientSecret := Js.Str "s3cret";
     externalUrl := "https://example.org";
     authPluginRedirectUrl := "/sign-in-redirect";
     authPluginConfig := {| key := plugin; explicitLogout := explicit |};
     timeout := None;
     maxClockSkew := None;
     scope := None;
     sessionCookieOptions := {| cookie_name := "connect.sid" |} |}.

(** The same deployment behind another issuer URL. *)
Definition with_issuer (url : string) (o : AuthPluginRouterOptions) :
    AuthPluginRouterOptions :=
  {| authorizationApi := authorizationApi o; issuer := Js.Str url;
     clientId := clientId o; clientSecret := clientSecret o;
     externalUrl := externalUrl o; authPluginRedirectUrl := authPluginRedirectUrl o;
     authPluginConfig := authPluginConfig o; timeout := timeout o;
     maxClockSkew := maxClockSkew o; scope := scope o;
     sessionCookieOptions := sessionCookieOptions o |}.

(** The same deployment with both optional numbers configured. *)
Definition with_numbers (t skew : Js.number) (o : AuthPluginRouterOptions) :
    AuthPluginRouterOptions :=
  {| authorizationApi := authorizationApi o; issuer := issuer o;
     clientId := clientId o; clientSecret := clientSecret o;
     externalUrl := externalUrl o; authPluginRedirectUrl := authPluginRedirectUrl o;
     authPluginConfig := authPluginConfig o; timeout := Some t;
     maxClockSkew := Some skew; scope := scope o;
     sessionCookieOptions := sessionCookieOptions o |}.

(** The same deployment without a client id. *)
Definition without_client_id (o : AuthPluginRouterOptions) : AuthPluginRouterOptions :=
  {| authorizationApi := authorizationApi o; issuer := issuer o;
     clientId := Js.Undefined; clientSecret := clientSecret o;
     externalUrl := externalUrl o; authPluginRedirectUrl := authPluginRedirectUrl o;
     authPluginConfig := authPluginConfig o; timeout := timeout o;
     maxClockSkew := maxClockSkew o; scope := scope o;
     sessionCookieOptions := sessionCookieOptions o |}.

Definition tokens : TokenSet :=
  {| access_token := Some "at"; id_token := Some "idt"; refresh_token := None |}.

Definition claims (address : option string) : Claims :=
  {| sub := Some "00u1"; name := Some "Ada Lovelace"; family_name := Some "Lovelace";
     given_name := Some "Ada"; email := address |}.

(** A session as a successful login leaves it. *)
Definition signed_in : SessionUser :=
  {| userToken := {| user_id := "u-1" |};
     authPlugin :=
       Some {| plugin_key := "okta"; tokenSet := Some tokens;
               logoutUrl := Some "/auth/plugin/okta/logout" |} |}.

Definition request (params : list (string * QueryValue)) : Request :=
  {| query := list_to_map params |}.

(** The router as construction returns it, if it does. *)
Definition router (opts : AuthPluginRouterOptions) : option Router :=
  match fst (createAuthPluginRouter opts boot) with
  | inr r => Some r
  | inl _ => None
  end.

End Deployment.

(** ** The rest of the earlier copy: its constructor and the state of
    its login route *)

Module LegacyRouter.
Section Construction.
Context `{PluginSdk} `{OidcLibrary} `{Runtime}.

(** What the routes of the earlier copy close over. *)
Record Router : Type := mkRouter {
  legacy_client : Client;
  legacy_externalUrl : string;
  legacy_resultRedirectionUrl : string
}.

(** [createAuthPluginRouter(options)] of the earlier copy: the default
    destination is resolved before the guards, and the issuer guard
    tests emptiness only. *)
Definition createAuthPluginRouter (options : AuthPluginRouterOptions) : M Router :=
  let externalUrl := externalUrl options in
  let resultRedirectionUrl :=
    getAbsoluteUrl (authPluginRedirectUrl options) (Some externalUrl) [] in
  if negb (Js.truthy (clientId options)) then
    throw (mkError "Required client id can't be empty!")
  else if negb (Js.truthy (clientSecret options)) then
    throw (mkError "Required client secret can't be empty!")
  else if negb (Js.truthy (issuer options)) then
    throw (mkError "Required issuer url (options.issuer) can't be empty!")
  else
    client <- Legacy.createOpenIdClient options ;;
    emit (EvPassportUse STRATEGY_NAME) ;;;
    ret {| legacy_client := client;
           legacy_externalUrl := externalUrl;
           legacy_resultRedirectionUrl := resultRedirectionUrl |}.

(** The [state] option that [router.get("/")] of the earlier copy
    passes to [passport.authenticate]. *)
Definition root_state (r : Router) (req : Request) : string :=
  match query req !! "redirect" with
  | Some (QString redirect) =>
      if Js.truthy_string redirect
      then getAbsoluteUrl redirect (Some (legacy_externalUrl r)) []
      else legacy_resultRedirectionUrl r
  | _ => legacy_resultRedirectionUrl r
  end.

End Construction.
End LegacyRouter.


(** ** Observations on traces, strings and request options *)

(** A call that answers the browser with a redirect: [res.redirect],
    [redirectOnSuccess] or [redirectOnError]. *)
Definition is_redirect (ev : Event) : bool :=
  match ev with
  | EvRedirect _ | EvRedirectOnSuccess _ | EvRedirectOnError _ _ => true
  | _ => false
  end.

Definition is_destroy (ev : Event) : bool :=
  match ev with
  | EvDestroyMagdaSession _ => true
  | _ => false
  end.

Definition is_discover (ev : Event) : bool :=
  match ev with
  | EvDiscover _ => true
  | _ => false
  end.

Definition is_passport_use (ev : Event) : bool :=
  match ev with
  | EvPassportUse _ => true
  | _ => false
  end.

(** How many events of a kind a trace holds. *)
Definition count (kind : Event -> bool) (events : list Event) : nat :=
  length (List.filter kind events).

(** A string without a space. *)
Fixpoint no_space (s : string) : bool :=
  match s with
  | EmptyString => true
  | String c rest => negb (Ascii.eqb c " "%char) && no_space rest
  end.

(** A string whose last character is a slash. *)
Fixpoint ends_with_slash (s : string) : bool :=
  match s with
  | EmptyString => false
  | String c EmptyString => Ascii.eqb c "/"%char
  | String _ rest => ends_with_slash rest
  end.

(** The header [k] of request options that may be [undefined]. *)
Definition header_of (opts : option Http.options) (k : string) : option Http.header :=
  (opts ≫= Http.headers) ≫= (fun hs => hs !! k).

(** Request options as the plugin wants them sent: the user agent
    names the plugin and its version first, and the timeout is a
    number other than 0 and [NaN]. *)
Definition plugin_request (opts : Http.options) : Prop :=
  (exists ua, header_of (Some opts) "User-Agent" = Some (Http.HString ua)
              /\ String.prefix "magda-auth-okta/1.1.1" ua = true)
  /\ exists t, Http.timeout opts = Some t /\ Js.truthy_number t = true.

(** ** Properties *)

(** Running a computation: unfold the plumbing, then compute. *)
Ltac run :=
  cbv beta delta
    [handle get_root get_return get_logout get_logout_return
     authenticate_callback destroyMagdaSession logIn arrive boot
     call_createOrGetUserToken Issuer_discover set_Issuer_http_options
     bind ret throw try_catch emit get_user] in *;
  simpl in *.

(** Membership in a trace that has been computed. *)
Ltac in_trace H :=
  repeat (apply elem_of_cons in H as [H | H]; [try discriminate H |]);
  try (apply elem_of_nil in H; contradiction).

Section Properties.
Context `{PluginSdk} `{OidcLibrary} `{Runtime}.

(** With the external base URL, [determineRedirectUrl] is the rule of
    the specification. *)
Lemma determineRedirectUrl_spec (options : AuthPluginRouterOptions) (req : Request) :
  determineRedirectUrl req (authPluginRedirectUrl options)
    (Some (externalUrl options))
  = spec_destination options req.
Proof.
  unfold determineRedirectUrl, spec_destination.
  destruct (query req !! "redirect") as [[redirect | items | fields] |]; try reflexivity.
  destruct redirect; reflexivity.
Qed.

(** The error path of [/return] ends in [redirectOnError], the other
    path in [redirectOnSuccess]; both are handed [req.query.state]. *)
Lemma get_return_last (r : Router) (req : Request) (exchange : Exchange) (st : State) :
  let out := get_return r req exchange st in
  fst out = inr tt /\
  (last (trace (snd out)) = Some (EvRedirectOnSuccess (query req !! "state")) \/
   exists err, last (trace (snd out)) = Some (EvRedirectOnError err (query req !! "state"))).
Proof.
  destruct exchange as [err | [tokens profile]]; run.
  - split; [reflexivity |]. right. exists err. by rewrite last_snoc.
  - unfold verify. destruct (profile_email profile) as [address |]; run.
    + destruct (createOrGetUserToken _ _ _) as [err | token]; run.
      * split; [reflexivity |]. right. exists err. by rewrite last_snoc.
      * split; [reflexivity |]. left. by rewrite last_snoc.
    + split; [reflexivity |]. right. eexists. by rewrite last_snoc.
Qed.

(** C1, as amended: Initiate, Logout-return and Logout-initiate
    without a provider token set hand on the destination of the one
    rule (the non-empty [redirect] string, else the configured default,
    resolved against the external base URL).  Logout-initiate with a
    token set takes the same choice but resolves it against no base and
    nests it in the post-logout callback; Complete does not read
    [redirect]: it hands the echoed [state] to the SDK's redirect. *)
Theorem redirect_rule_by_endpoint (r : Router) (req : Request)
    (session : option SessionUser) (exchange : Exchange) :
  let options := router_options r in
  let cookie := sessionCookieOptions options in
  let resolved := spec_destination options req in
  let unresolved := determineRedirectUrl req (authPluginRedirectUrl options) None in
  trace (snd (handle r Initiate req (arrive session)))
    = hands_on r Initiate session resolved
  /\ trace (snd (handle r LogoutReturn req (arrive session)))
    = (match session with
       | Some _ => [EvDestroyMagdaSession cookie]
       | None => []
       end ++ hands_on r LogoutReturn session resolved)%list
  /\ trace (snd (handle r LogoutInitiate req (arrive session)))
    = EvDestroyMagdaSession cookie
        :: hands_on r LogoutInitiate session
             (match (session ≫= authPlugin) ≫= tokenSet with
              | Some _ => unresolved
              | None => resolved
              end)
  /\ (last (trace (snd (handle r (Complete exchange) req (arrive session))))
        = Some (EvRedirectOnSuccess (query req !! "state"))
      \/ exists err,
        last (trace (snd (handle r (Complete exchange) req (arrive session))))
        = Some (EvRedirectOnError err (query req !! "state"))).
Proof.
  intros options cookie resolved unresolved.
  subst resolved. rewrite <- determineRedirectUrl_spec.
  split; [reflexivity |].
  split; [run; by destruct session |].
  split.
  - run. unfold hands_on. by destruct ((session ≫= authPlugin) ≫= tokenSet).
  - apply (get_return_last r req exchange (arrive session)).
Qed.

(** Claims without a non-empty email: [!profile?.email] holds. *)
Lemma profile_email_none (profile : option Claims) :
  profile ≫= email = None \/ profile ≫= email = Some "" ->
  profile_email profile = None.
Proof.
  unfold profile_email.
  destruct profile as [claims |]; simpl; [| reflexivity].
  intros [-> | ->]; reflexivity.
Qed.

(** C2: when the exchanged claims have no non-empty email, the verify
    callback calls [done] with an error and no user, the user/token
    resolver is not called, no session is established, and the attempt
    ends in the error redirect. *)
Theorem missing_email_ends_attempt (r : Router) (req : Request)
    (tokens : TokenSet) (profile : option Claims) (session : option SessionUser) :
  profile ≫= email = None \/ profile ≫= email = Some "" ->
  let failure := mkError "Cannot locate email address from the user profile." in
  let out := handle r (Complete (inr (tokens, profile))) req (arrive session) in
  verify (router_options r) tokens profile (arrive session)
    = (inr (DoneError failure), arrive session)
  /\ fst out = inr tt
  /\ store (snd out) = session
  /\ trace (snd out)
     = [EvAuthenticate STRATEGY_NAME
          {| opt_scope := None; opt_state := None; failWithError := true |};
        EvRedirectOnError failure (query req !! "state")]
  /\ (forall userData plugin,
        EvCreateOrGetUserToken userData plugin ∉ trace (snd out))
  /\ (forall u, EvLogIn u ∉ trace (snd out)).
Proof.
  intros Hemail failure out.
  apply profile_email_none in Hemail.
  assert (Hverify : verify (router_options r) tokens profile (arrive session)
                    = (inr (DoneError failure), arrive session)).
  { unfold verify. by rewrite Hemail. }
  assert (Htrace : out = (inr tt,
            {| store := session; user := session; Issuer_http_options := None;
               trace := [EvAuthenticate STRATEGY_NAME
                           {| opt_scope := None; opt_state := None;
                              failWithError := true |};
                         EvRedirectOnError failure (query req !! "state")] |})).
  { subst out. run. unfold verify. rewrite Hemail. reflexivity. }
  rewrite Htrace. simpl.
  repeat split; try done.
  - intros userData plugin Hin. in_trace Hin.
  - intros u Hin. in_trace Hin.
Qed.

(** C3: the destination that Initiate embeds as [state] is the one
    Complete hands to the final redirect, when the provider's callback
    carries that [state] back unchanged: to [redirectOnSuccess] when a
    session was established, to [redirectOnError] otherwise. *)
Theorem state_round_trip (r : Router) (initiate callback : Request)
    (exchange : Exchange) (session session' : option SessionUser) :
  let options := router_options r in
  let destination :=
    determineRedirectUrl initiate (authPluginRedirectUrl options)
      (Some (externalUrl options)) in
  let completed := trace (snd (handle r (Complete exchange) callback (arrive session'))) in
  query callback !! "state" = Some (QString destination) ->
  trace (snd (handle r Initiate initiate (arrive session)))
    = [EvAuthenticate STRATEGY_NAME
         {| opt_scope := Some (router_scope r); opt_state := Some destination;
            failWithError := false |}]
  /\ (last completed = Some (EvRedirectOnSuccess (Some (QString destination)))
      \/ exists err,
        last completed = Some (EvRedirectOnError err (Some (QString destination))))
  /\ (forall u, EvLogIn u ∈ completed ->
        last completed = Some (EvRedirectOnSuccess (Some (QString destination)))).
Proof.
  intros options destination completed Hecho.
  split; [reflexivity |].
  split.
  - rewrite <- Hecho.
    apply (get_return_last r callback exchange (arrive session')).
  - intros u. subst completed. rewrite <- Hecho.
    destruct exchange as [err | [tokens profile]]; run.
    + intros Hin. in_trace Hin.
    + unfold verify. destruct (profile_email profile) as [address |]; run.
      * destruct (createOrGetUserToken _ _ _) as [err | token]; run.
        -- intros Hin. in_trace Hin.
        -- reflexivity.
      * intros Hin. in_trace Hin.
Qed.

(** C4: Logout-initiate destroys the local session before anything
    else and never fails; without a session, or with one that carries
    no provider token set, it redirects straight to the post-logout
    destination; after any first call no session is left, and a second
    and a third call both give that same direct redirect. *)
Theorem logout_initiate_idempotent (r : Router) (req : Request)
    (session : option SessionUser) :
  let options := router_options r in
  let cookie := sessionCookieOptions options in
  let direct :=
    [EvDestroyMagdaSession cookie; EvRedirect (spec_destination options req)] in
  let first := handle r LogoutInitiate req (arrive session) in
  let second := handle r LogoutInitiate req (arrive (store (snd first))) in
  let third := handle r LogoutInitiate req (arrive (store (snd second))) in
  (fst first = inr tt
   /\ head (trace (snd first)) = Some (EvDestroyMagdaSession cookie)
   /\ store (snd first) = None)
  /\ match (session ≫= authPlugin) ≫= tokenSet with
     | None => trace (snd first) = direct
     | Some _ => True
     end
  /\ (fst second = inr tt /\ trace (snd second) = direct /\ store (snd second) = None)
  /\ (fst third = inr tt /\ trace (snd third) = direct /\ store (snd third) = None).
Proof.
  intros options cookie direct first second third.
  assert (Hfirst : fst first = inr tt
                   /\ head (trace (snd first)) = Some (EvDestroyMagdaSession cookie)
                   /\ store (snd first) = None).
  { subst first. run. by destruct ((session ≫= authPlugin) ≫= tokenSet). }
  assert (Hnone : forall out,
            out = handle r LogoutInitiate req (arrive None) ->
            fst out = inr tt /\ trace (snd out) = direct /\ store (snd out) = None).
  { intros out ->. subst direct. rewrite <- determineRedirectUrl_spec. by run. }
  split; [exact Hfirst |].
  split.
  - subst first direct. rewrite <- determineRedirectUrl_spec. run.
    by destruct ((session ≫= authPlugin) ≫= tokenSet).
  - destruct Hfirst as (_ & _ & Hstore).
    assert (Hsecond : fst second = inr tt /\ trace (snd second) = direct
                      /\ store (snd second) = None).
    { apply Hnone. subst second. by rewrite Hstore. }
    split; [exact Hsecond |].
    destruct Hsecond as (_ & _ & Hstore').
    apply Hnone. subst third. by rewrite Hstore'.
Qed.

(** C5: whenever Complete establishes a session, the provider marker
    of that session carries a logout URL exactly when [explicitLogout]
    is set, and then it is the plugin's logout path. *)
Theorem logout_url_iff_explicit_logout (r : Router) (req : Request)
    (exchange : Exchange) (session : option SessionUser) (u : SessionUser) :
  let config := authPluginConfig (router_options r) in
  let out := handle r (Complete exchange) req (arrive session) in
  EvLogIn u ∈ trace (snd out) ->
  store (snd out) = Some u
  /\ exists marker,
      authPlugin u = Some marker
      /\ plugin_key marker = key config
      /\ logoutUrl marker
         = (if explicitLogout config
            then Some ("/auth/plugin/" +:+ key config +:+ "/logout")
            else None)
      /\ (is_Some (logoutUrl marker) <-> explicitLogout config = true).
Proof.
  intros config out. subst out.
  destruct exchange as [err | [tokens profile]]; run.
  { intros Hin. in_trace Hin. }
  unfold verify. destruct (profile_email profile) as [address |]; run.
  2: { intros Hin. in_trace Hin. }
  destruct (createOrGetUserToken _ _ _) as [err | token]; run.
  { intros Hin. in_trace Hin. }
  intros Hin.
  apply elem_of_cons in Hin as [Hin | Hin]; [discriminate Hin |].
  apply elem_of_cons in Hin as [Hin | Hin]; [discriminate Hin |].
  apply elem_of_cons in Hin as [Hin | Hin]; [| in_trace Hin].
  injection Hin as ->.
  split; [reflexivity |].
  eexists. split; [reflexivity |]. simpl. split; [reflexivity |].
  split; [reflexivity |].
  fold config. destruct (explicitLogout config).
  - split; [reflexivity | by eexists].
  - split; [intros [url Hurl]; discriminate Hurl | discriminate].
Qed.

(** C9: the token set is taken from [req.user] before the session is
    destroyed: when the session held one, the session is destroyed
    first, whatever the SDK then leaves in [req.user], and the redirect
    that follows goes to the provider's end-session URL with that
    token set as the id-token hint. *)
Theorem logout_hint_read_before_destroy (r : Router) (req : Request)
    (session : option SessionUser) (hint : TokenSet) :
  let options := router_options r in
  let out := handle r LogoutInitiate req (arrive session) in
  (session ≫= authPlugin) ≫= tokenSet = Some hint ->
  fst out = inr tt
  /\ store (snd out) = None
  /\ user (snd out) = userAfterDestroy session
  /\ trace (snd out)
     = [EvDestroyMagdaSession (sessionCookieOptions options);
        EvRedirect
          (endSessionUrl (router_client r)
             {| id_token_hint := hint;
                post_logout_redirect_uri :=
                  getAbsoluteUrl
                    ("/auth/plugin/" +:+ key (authPluginConfig options)
                       +:+ "/logout/return")
                    (Some (externalUrl options))
                    [("redirect",
                      determineRedirectUrl req (authPluginRedirectUrl options)
                        None)] |})].
Proof.
  intros options out Hhint. subst out. run. rewrite Hhint. by run.
Qed.

(** The constructor gets past its guards exactly when the three
    values pass them. *)
Lemma createAuthPluginRouter_guarded (options : AuthPluginRouterOptions) (url : string) :
  Js.truthy (clientId options) = true ->
  Js.truthy (clientSecret options) = true ->
  issuer options = Js.Str url -> url <> "" ->
  createAuthPluginRouter options
  = (client <- createOpenIdClient options ;;
     emit (EvPassportUse STRATEGY_NAME) ;;;
     ret {| router_options := options;
            router_scope :=
              match scope options with
              | Some s => if Js.truthy_string s then s else DEFAULT_SCOPE
              | None => DEFAULT_SCOPE
              end;
            router_client := client |}).
Proof.
  intros Hid Hsecret Hissuer Hurl. unfold createAuthPluginRouter.
  rewrite Hid, Hsecret, Hissuer. simpl.
  destruct url; [contradiction | reflexivity].
Qed.

Lemma present_truthy (v : Js.value) : present v -> Js.truthy v = true.
Proof. intros (s & -> & Hs). destruct s; [contradiction | reflexivity]. Qed.

Lemma missing_falsy (v : Js.value) : missing_or_empty v -> Js.truthy v = false.
Proof. intros [-> | [-> | ->]]; reflexivity. Qed.

(** C8: a missing or empty client id, client secret or issuer URL
    makes the constructor throw one of its configuration errors before
    it has done anything: no discovery, no strategy registered, no
    router.  With the three present the constructor throws no
    configuration error of its own: it fails only with the error
    discovery rejected with, and returns the router otherwise. *)
Theorem configuration_guard (options : AuthPluginRouterOptions) (st : State) :
  (missing_or_empty (clientId options) \/ missing_or_empty (clientSecret options)
     \/ missing_or_empty (issuer options) ->
   exists err, ConfigurationError err
               /\ createAuthPluginRouter options st = (inl err, st))
  /\ (present (clientId options) -> present (clientSecret options) ->
      forall url, issuer options = Js.Str url -> url <> "" ->
      match discover (discoveryUrl url) with
      | inl err => fst (createAuthPluginRouter options st) = inl err
      | inr _ =>
          exists router,
            fst (createAuthPluginRouter options st) = inr router
            /\ router_options router = options
            /\ last (trace (snd (createAuthPluginRouter options st)))
               = Some (EvPassportUse STRATEGY_NAME)
      end).
Proof.
  split.
  - unfold createAuthPluginRouter, ConfigurationError.
    destruct (Js.truthy (clientId options)) eqn:Hid; simpl.
    2: { eexists. split; [left; reflexivity | reflexivity]. }
    destruct (Js.truthy (clientSecret options)) eqn:Hsecret; simpl.
    2: { eexists. split; [right; left; reflexivity | reflexivity]. }
    destruct (Js.truthy (issuer options)) eqn:Hissuer; simpl.
    2: { eexists. split; [right; right; reflexivity | reflexivity]. }
    intros [Hm | [Hm | Hm]]; apply missing_falsy in Hm; congruence.
  - intros Hid Hsecret url Hissuer Hurl.
    rewrite (createAuthPluginRouter_guarded options url)
      by auto using present_truthy.
    unfold createOpenIdClient, issuer_string. rewrite Hissuer. run.
    destruct (discover (discoveryUrl url)) as [err | iss]; run.
    + reflexivity.
    + eexists. split; [reflexivity |]. split; [reflexivity |].
      by rewrite last_snoc.
Qed.

(** What a created client and the installed [Issuer] hook are. *)
Lemma createOpenIdClient_inv (options : AuthPluginRouterOptions) (st st' : State)
    (client : Client) :
  createOpenIdClient options st = (inr client, st') ->
  redirect_uris (metadata client)
    = [getAbsoluteUrl "/okta/return"
         (Some (getAbsoluteUrl "/auth/login/plugin" (Some (externalUrl options)) []))
         []]
  /\ clock_tolerance client
     = match maxClockSkew options with
       | None => OKTA_DEFAULT_MAX_CLOCK_SKEW
       | Some skew => skew
       end
  /\ (forall opts,
        Http.timeout (http_options client opts)
        = Some (Js.number_or (opts ≫= Http.timeout) OKTA_DEFAULT_TIMEOUT))
  /\ exists hook,
      Issuer_http_options st' = Some hook
      /\ forall opts,
          Http.timeout (hook opts)
          = Some (Js.number_or (timeout options) OKTA_DEFAULT_TIMEOUT).
Proof.
  unfold createOpenIdClient, issuer_string.
  destruct (issuer options) as [| | url | n | b]; run; try discriminate.
  destruct (discover (discoveryUrl url)) as [err | iss]; run; [discriminate |].
  intros [= <- <-]. simpl.
  split; [reflexivity |]. split; [reflexivity |].
  split.
  - intros opts. by destruct opts.
  - eexists. split; reflexivity.
Qed.

(** C10: the two optional numbers are defaulted differently.  A
    configured [maxClockSkew] is the clock tolerance whatever its
    value, 0 included, and only its absence gives 120.  A configured
    [timeout] of 0 gives the [Issuer] requests the default 10000, as
    its absence does; the client's own hook applies the same falsy
    test to the timeout of the request options it is handed. *)
Theorem numeric_defaults_asymmetric (options : AuthPluginRouterOptions)
    (st st' : State) (client : Client) :
  createOpenIdClient options st = (inr client, st') ->
  (maxClockSkew options = Some (Js.Num 0) -> clock_tolerance client = Js.Num 0)
  /\ (forall skew, maxClockSkew options = Some skew -> clock_tolerance client = skew)
  /\ (maxClockSkew options = None -> clock_tolerance client = Js.Num 120)
  /\ (exists hook,
        Issuer_http_options st' = Some hook
        /\ (timeout options = Some (Js.Num 0) ->
            forall opts, Http.timeout (hook opts) = Some (Js.Num 10000))
        /\ (timeout options = None ->
            forall opts, Http.timeout (hook opts) = Some (Js.Num 10000))
        /\ (forall t, timeout options = Some t -> Js.truthy_number t = true ->
            forall opts, Http.timeout (hook opts) = Some t))
  /\ (forall opts,
        opts ≫= Http.timeout = Some (Js.Num 0) \/ opts ≫= Http.timeout = None ->
        Http.timeout (http_options client opts) = Some (Js.Num 10000)).
Proof.
  intros Hcreate.
  destruct (createOpenIdClient_inv _ _ _ _ Hcreate)
    as (_ & Htolerance & Hclient & hook & Hhook & Htimeout).
  split; [intros Hskew; by rewrite Htolerance, Hskew |].
  split; [intros skew Hskew; by rewrite Htolerance, Hskew |].
  split; [intros Hskew; by rewrite Htolerance, Hskew |].
  split.
  - exists hook. split; [exact Hhook |].
    split; [intros Ht opts; by rewrite Htimeout, Ht |].
    split; [intros Ht opts; by rewrite Htimeout, Ht |].
    intros t Ht Htruthy opts. rewrite Htimeout, Ht. simpl. by rewrite Htruthy.
  - intros opts [Ht | Ht]; by rewrite Hclient, Ht.
Qed.

(** The last character of a non-empty issuer, as [substr] cuts it. *)
Lemma substr_last (c : ascii) (s : string) :
  Js.substr (String c s) (Z.of_nat (String.length (String c s)) - 1)
  = match s with
    | EmptyString => String c EmptyString
    | String _ _ => Js.substr s (Z.of_nat (String.length s) - 1)
    end.
Proof.
  unfold Js.substr.
  assert (Hlast : forall (t : string) (n : nat),
            n = String.length t ->
            (if Z.of_nat (S n) - 1 <? 0
             then Z.max (Z.of_nat (S n) + (Z.of_nat (S n) - 1)) 0
             else Z.min (Z.of_nat (S n) - 1) (Z.of_nat (S n))) = Z.of_nat n).
  { intros t n _. destruct (Z.ltb_spec (Z.of_nat (S n) - 1) 0); lia. }
  destruct s as [| c' s'].
  - reflexivity.
  - cbn [String.length].
    rewrite (Hlast (String c' s') (S (String.length s'))) by reflexivity.
    rewrite (Hlast s' (String.length s')) by reflexivity.
    replace (Z.of_nat (S (S (String.length s'))) - Z.of_nat (S (String.length s')))
      with 1 by lia.
    replace (Z.of_nat (S (String.length s')) - Z.of_nat (String.length s'))
      with 1 by lia.
    rewrite !Nat2Z.id. reflexivity.
Qed.

(** In this version of the file the discovery URL has one slash
    between the issuer and the well-known path, whether or not the
    issuer ends in a slash. *)
Lemma discoveryUrl_one_slash (issuer : string) :
  discoveryUrl issuer
  = without_trailing_slash issuer +:+ "/.well-known/openid-configuration".
Proof.
  unfold discoveryUrl.
  induction issuer as [| c rest IH]; [reflexivity |].
  rewrite substr_last. destruct rest as [| c' rest'].
  - simpl. destruct (Ascii.eqb_spec c "/"%char) as [-> | Hc]; [reflexivity |].
    destruct (Ascii.eqb_spec c "/"%char); [contradiction | reflexivity].
  - change (String c (String c' rest') +:+ ?x) with (String c (String c' rest' +:+ x)).
    rewrite IH. reflexivity.
Qed.

End Properties.

(** ** The router of a concrete deployment *)

Section Deployed.
Import Deployment.

(** C1, as the claim states it, fails: with a provider token set in
    the session, [/logout?redirect=/dashboard] nests the unresolved
    "/dashboard" in the post-logout callback, not the destination of
    the rule, "https://example.org/dashboard"; and [/return] hands on
    the echoed [state], whatever [redirect] says. *)
Lemma redirect_rule_not_uniform :
  exists r,
    router (options "okta" true) = Some r
    /\ let req :=
         request [("redirect", QString "/dashboard");
                  ("state", QString "https://example.org/elsewhere")] in
       let claimed := spec_destination (router_options r) req in
       let login := inr (tokens, Some (claims (Some "ada@example.org"))) in
       claimed = "https://example.org/dashboard"
       /\ trace (snd (handle r LogoutInitiate req (arrive (Some signed_in))))
          <> EvDestroyMagdaSession (sessionCookieOptions (router_options r))
               :: hands_on r LogoutInitiate (Some signed_in) claimed
       /\ last (trace (snd (handle r (Complete login) req (arrive None))))
          <> last (hands_on r (Complete login) None claimed).
Proof.
  eexists. split; [reflexivity |].
  split; [reflexivity |].
  split; vm_compute; intros Heq; discriminate Heq.
Qed.

(** C6 at the plugin key "okta-sso": the client is bound to the
    return URL of the key "okta", not to the one of the configured
    key. *)
Theorem redirect_uri_ignores_plugin_key :
  exists r,
    router (options "okta-sso" true) = Some r
    /\ key (authPluginConfig (router_options r)) = "okta-sso"
    /\ redirect_uris (metadata (router_client r))
       = ["https://example.org/auth/login/plugin/okta/return"]
    /\ spec_redirect_uri (router_options r)
       = "https://example.org/auth/login/plugin/okta-sso/return"
    /\ redirect_uris (metadata (router_client r))
       <> [spec_redirect_uri (router_options r)].
Proof.
  eexists. split; [reflexivity |].
  repeat split; vm_compute; intros Heq; discriminate Heq.
Qed.

(** C7 at an issuer that ends in a slash: the earlier copy of the
    file asks discovery for a URL with two slashes before the
    well-known path, where the later one asks for the URL with one. *)
Theorem legacy_discovery_url_double_slash :
  let issuer := "https://dev-1.okta.com/oauth2/default/" in
  let opts := with_issuer issuer (options "okta" true) in
  trace (snd (Legacy.createOpenIdClient opts boot))
    = [EvDiscover
         "https://dev-1.okta.com/oauth2/default//.well-known/openid-configuration"]
  /\ trace (snd (createOpenIdClient opts boot))
     = [EvDiscover
          "https://dev-1.okta.com/oauth2/default/.well-known/openid-configuration"]
  /\ Legacy.discoveryUrl issuer
     <> without_trailing_slash issuer +:+ "/.well-known/openid-configuration".
Proof.
  split; [reflexivity |]. split; [reflexivity |].
  vm_compute. intros Heq. discriminate Heq.
Qed.

(** Claims without an email on [/return]: the attempt ends in the
    error redirect and nothing else was called. *)
Lemma missing_email_ends_attempt_witness :
  exists r,
    router (options "okta" true) = Some r
    /\ let req := request [("state", QString "https://example.org/dashboard")] in
       let profile := Some (claims None) in
       (profile ≫= email = None \/ profile ≫= email = Some "")
       /\ trace (snd (handle r (Complete (inr (tokens, profile))) req (arrive None)))
          = [EvAuthenticate "okta-oidc"
               {| opt_scope := None; opt_state := None; failWithError := true |};
             EvRedirectOnError
               (mkError "Cannot locate email address from the user profile.")
               (Some (QString "https://example.org/dashboard"))].
Proof.
  eexists. split; [reflexivity |].
  split; [left; reflexivity |].
  refine (proj1 (proj2 (proj2 (proj2
            (missing_email_ends_attempt _ _ tokens (Some (claims None)) None _))))).
  left; reflexivity.
Defined.

(** The scenario of the specification: [/?redirect=/dashboard] behind
    "https://example.org", the provider echoes the state, the claims
    carry an email: the browser ends at
    "https://example.org/dashboard". *)
Lemma state_round_trip_witness :
  exists r,
    router (options "okta" true) = Some r
    /\ let initiate := request [("redirect", QString "/dashboard")] in
       let callback :=
         request [("code", QString "c0de");
                  ("state", QString "https://example.org/dashboard")] in
       let login := inr (tokens, Some (claims (Some "a@b.com"))) in
       query callback !! "state"
         = Some (QString
                   (determineRedirectUrl initiate
                      (authPluginRedirectUrl (router_options r))
                      (Some (externalUrl (router_options r)))))
       /\ last (trace (snd (handle r (Complete login) callback (arrive None))))
          = Some (EvRedirectOnSuccess
                    (Some (QString "https://example.org/dashboard"))).
Proof.
  eexists. split; [reflexivity |].
  split; [reflexivity |].
  refine (proj2 (proj2
            (state_round_trip _ (request [("redirect", QString "/dashboard")])
               _ _ None None _)) _ _);
    [reflexivity |].
  do 2 apply list_elem_of_further. apply list_elem_of_here.
Defined.

(** With [explicitLogout] set, a login through the plugin "okta"
    leaves "/auth/plugin/okta/logout" in the provider marker. *)
Lemma logout_url_iff_explicit_logout_witness :
  exists r u,
    router (options "okta" true) = Some r
    /\ let req := request [("state", QString "https://example.org/dashboard")] in
       let login := inr (tokens, Some (claims (Some "a@b.com"))) in
       EvLogIn u ∈ trace (snd (handle r (Complete login) req (arrive None)))
       /\ exists marker,
           authPlugin u = Some marker
           /\ logoutUrl marker = Some "/auth/plugin/okta/logout".
Proof.
  eexists. exists signed_in. split; [reflexivity |].
  cbv zeta.
  lazymatch goal with
  | |- _ ∈ ?events /\ _ => assert (Hin : EvLogIn signed_in ∈ events)
  end.
  { do 2 apply list_elem_of_further. apply list_elem_of_here. }
  split; [exact Hin |].
  destruct (logout_url_iff_explicit_logout _ _ _ _ _ Hin)
    as (_ & marker & Hmarker & _ & Hurl & _).
  exists marker. split; [exact Hmarker | exact Hurl].
Defined.

(** A signed-in user logs out: the session is destroyed, then the
    browser goes to the provider with the id token of that session. *)
Lemma logout_hint_read_before_destroy_witness :
  exists r,
    router (options "okta" true) = Some r
    /\ let req := request [("redirect", QString "/dashboard")] in
       (Some signed_in ≫= authPlugin) ≫= tokenSet = Some tokens
       /\ userAfterDestroy (Some signed_in) = None
       /\ trace (snd (handle r LogoutInitiate req (arrive (Some signed_in))))
          = [EvDestroyMagdaSession {| cookie_name := "connect.sid" |};
             EvRedirect
               ("https://dev-1.okta.com/oauth2/default/v1/logout?id_token_hint=idt"
                  +:+ "&post_logout_redirect_uri="
                  +:+ "https://example.org/auth/plugin/okta/logout/return"
                  +:+ "?redirect=/dashboard")].
Proof.
  eexists. split; [reflexivity |].
  split; [reflexivity |]. split; [reflexivity |].
  refine (proj2 (proj2 (proj2
            (logout_hint_read_before_destroy _
               (request [("redirect", QString "/dashboard")])
               (Some signed_in) tokens _)))).
  reflexivity.
Defined.

(** Both numbers configured as 0: the clock tolerance is 0, the
    timeout of the discovery requests is 10000. *)
Lemma numeric_defaults_asymmetric_witness :
  exists client st',
    createOpenIdClient (with_numbers (Js.Num 0) (Js.Num 0) (options "okta" true)) boot
      = (inr client, st')
    /\ clock_tolerance client = Js.Num 0
    /\ exists hook,
        Issuer_http_options st' = Some hook
        /\ forall opts, Http.timeout (hook opts) = Some (Js.Num 10000).
Proof.
  eexists. eexists.
  assert (Hcreate :
    createOpenIdClient (with_numbers (Js.Num 0) (Js.Num 0) (options "okta" true)) boot
    = (inr _, _)) by reflexivity.
  split; [exact Hcreate |].
  destruct (numeric_defaults_asymmetric _ _ _ _ Hcreate)
    as (Hzero & _ & _ & (hook & Hhook & Htimeout & _) & _).
  split; [exact (Hzero eq_refl) |].
  exists hook. split; [exact Hhook | exact (Htimeout eq_refl)].
Defined.

(** Without a client id the constructor throws before discovery;
    with the full configuration it returns the router. *)
Lemma configuration_guard_witness :
  (exists err,
     ConfigurationError err
     /\ createAuthPluginRouter (without_client_id (options "okta" true)) boot
        = (inl err, boot))
  /\ exists r,
      fst (createAuthPluginRouter (options "okta" true) boot) = inr r
      /\ router_options r = options "okta" true
      /\ last (trace (snd (createAuthPluginRouter (options "okta" true) boot)))
         = Some (EvPassportUse "okta-oidc").
Proof.
  split.
  - apply (proj1 (configuration_guard (without_client_id (options "okta" true)) boot)).
    left. left. reflexivity.
  - refine (proj2 (configuration_guard (options "okta" true) boot) _ _
              "https://dev-1.okta.com/oauth2/default" eq_refl _).
    + eexists. split; [reflexivity | discriminate].
    + eexists. split; [reflexivity | discriminate].
    + discriminate.
Defined.

End Deployed.

(** ** More properties of the two files *)

Section Coverage.
Context `{PluginSdk} `{OidcLibrary} `{Runtime}.

Lemma count_app (kind : Event -> bool) (a b : list Event) :
  count kind (a ++ b) = (count kind a + count kind b)%nat.
Proof. unfold count. by rewrite List.filter_app, length_app. Qed.

Lemma append_cancel_l (a x y : string) : a +:+ x = a +:+ y -> x = y.
Proof. induction a as [| c a IH]; [auto | intros [= Heq]; auto]. Qed.

Lemma append_assoc (a b c : string) : (a +:+ b) +:+ c = a +:+ (b +:+ c).
Proof.
  induction a as [| ch a IH]; [reflexivity |].
  change (String ch ((a +:+ b) +:+ c) = String ch (a +:+ (b +:+ c))).
  by rewrite IH.
Qed.

Lemma without_trailing_slash_app (s : string) :
  without_trailing_slash (s +:+ "/") = s.
Proof.
  induction s as [| c s IH]; [reflexivity |].
  change (without_trailing_slash (String c (s +:+ "/")) = String c s).
  destruct s as [| c' s']; [reflexivity |].
  change (String c (without_trailing_slash (String c' s' +:+ "/")) = String c (String c' s')).
  by rewrite IH.
Qed.

Lemma ends_with_slash_false (s : string) :
  ends_with_slash s = false -> without_trailing_slash s = s.
Proof.
  induction s as [| c s IH]; [reflexivity |].
  destruct s as [| c' s'].
  - simpl. by intros ->.
  - intros Hs. change (String c (without_trailing_slash (String c' s')) = String c (String c' s')).
    by rewrite IH.
Qed.

Lemma ends_with_slash_true (s : string) :
  ends_with_slash s = true -> s = without_trailing_slash s +:+ "/".
Proof.
  induction s as [| c s IH]; [discriminate |].
  destruct s as [| c' s'].
  - simpl. intros Hc. rewrite Hc. by apply Ascii.eqb_eq in Hc as ->.
  - intros Hs.
    change (String c (String c' s')
            = String c (without_trailing_slash (String c' s') +:+ "/")).
    by rewrite <- IH.
Qed.

(** What [createOpenIdClient] asks discovery for, given a string
    issuer: one request, for [discoveryUrl]. *)
Lemma createOpenIdClient_trace (options : AuthPluginRouterOptions) (st : State)
    (url : string) :
  issuer options = Js.Str url ->
  trace (snd (createOpenIdClient options st))
  = (trace st ++ [EvDiscover (discoveryUrl url)])%list.
Proof.
  intros Hissuer. unfold createOpenIdClient, issuer_string. rewrite Hissuer. run.
  by destruct (discover (discoveryUrl url)).
Qed.

(** X1: an issuer with and without a trailing slash are the same
    provider to [createOpenIdClient]: for both it asks discovery, once,
    for the issuer without the slash followed by
    "/.well-known/openid-configuration". *)
Theorem discovery_url_normalized (bare slashed : AuthPluginRouterOptions)
    (st : State) (url : string) :
  ends_with_slash url = false ->
  issuer bare = Js.Str url ->
  issuer slashed = Js.Str (url +:+ "/") ->
  trace (snd (createOpenIdClient bare st))
    = (trace st ++ [EvDiscover (url +:+ "/.well-known/openid-configuration")])%list
  /\ trace (snd (createOpenIdClient slashed st))
     = (trace st ++ [EvDiscover (url +:+ "/.well-known/openid-configuration")])%list.
Proof.
  intros Hurl Hbare Hslashed.
  rewrite (createOpenIdClient_trace bare st url Hbare).
  rewrite (createOpenIdClient_trace slashed st _ Hslashed).
  rewrite !discoveryUrl_one_slash, without_trailing_slash_app.
  by rewrite ends_with_slash_false.
Qed.

(** X2: the two copies of the file ask discovery for the same URL
    exactly for the issuers that do not end in a slash. *)
Theorem discovery_urls_agree (url : string) :
  Legacy.discoveryUrl url = discoveryUrl url <-> ends_with_slash url = false.
Proof.
  rewrite discoveryUrl_one_slash. unfold Legacy.discoveryUrl. split.
  - intros Heq. destruct (ends_with_slash url) eqn:Hslash; [| reflexivity].
    apply ends_with_slash_true in Hslash.
    rewrite Hslash in Heq at 1.
    rewrite append_assoc in Heq. apply append_cancel_l in Heq. discriminate Heq.
  - intros Hslash. by rewrite ends_with_slash_false.
Qed.

Lemma split_space_first_token (token rest : string) :
  no_space token = true ->
  Js.split_space_first (token +:+ " " +:+ rest) = token.
Proof.
  induction token as [| c token IH]; [reflexivity |].
  change (negb (Ascii.eqb c " ") && no_space token = true ->
          Js.split_space_first (String c (token +:+ " " +:+ rest)) = String c token).
  intros [Hc Htoken]%andb_prop. simpl.
  destruct (Ascii.eqb c " "); [discriminate |]. by rewrite IH.
Qed.

Lemma split_space_first_whole (token : string) :
  no_space token = true -> Js.split_space_first token = token.
Proof.
  induction token as [| c token IH]; [reflexivity |].
  simpl. intros [Hc Htoken]%andb_prop.
  destruct (Ascii.eqb c " "); [discriminate |]. by rewrite IH.
Qed.

(** The user agent [customizeUserAgent] writes, by the token it keeps
    of the incoming one. *)
Lemma customizeUserAgent_agent (opts : option Http.options) :
  header_of (Some (customizeUserAgent opts)) "User-Agent"
  = Some (Http.HString
            (pkg.name +:+ "/" +:+ pkg.version
               +:+ match header_of opts "User-Agent" with
                   | Some (Http.HString ua) => " " +:+ Js.split_space_first ua
                   | _ => ""
                   end
               +:+ " node/" +:+ node_version +:+ " " +:+ os_platform
               +:+ "/" +:+ os_release)).
Proof.
  unfold header_of, customizeUserAgent.
  destruct opts as [[[hs |] t] |]; simpl; by rewrite lookup_insert_eq.
Qed.

(** X3: [customizeUserAgent] touches the user agent only: every other
    header of the request options and their timeout come back as they
    went in, also when the options or their headers are [undefined],
    and the user agent that comes back is a string. *)
Theorem customizeUserAgent_keeps_the_rest (opts : option Http.options) (k : string) :
  Http.timeout (customizeUserAgent opts) = opts ≫= Http.timeout
  /\ (exists ua,
        header_of (Some (customizeUserAgent opts)) "User-Agent"
        = Some (Http.HString ua))
  /\ (k <> "User-Agent" ->
      header_of (Some (customizeUserAgent opts)) k = header_of opts k).
Proof.
  split; [by destruct opts |].
  split; [rewrite customizeUserAgent_agent; by eexists |].
  intros Hk. unfold header_of, customizeUserAgent.
  destruct opts as [[[hs |] t] |]; simpl; by rewrite lookup_insert_ne.
Qed.

(** X4: of the user agent that the library proposes,
    [customizeUserAgent] keeps the text before the first space (the
    library's name and version, not the link after it) and puts it
    between the plugin's name and version and the runtime; a proposal
    that is not a string, or none, leaves just the plugin and the
    runtime. *)
Theorem customizeUserAgent_first_token (opts : option Http.options)
    (token rest : string) :
  let agent (library : string) :=
    Some (Http.HString
            ("magda-auth-okta/1.1.1" +:+ library +:+ " node/" +:+ node_version
               +:+ " " +:+ os_platform +:+ "/" +:+ os_release)) in
  no_space token = true ->
  (header_of opts "User-Agent" = Some (Http.HString (token +:+ " " +:+ rest)) ->
   header_of (Some (customizeUserAgent opts)) "User-Agent" = agent (" " +:+ token))
  /\ (header_of opts "User-Agent" = Some (Http.HString token) ->
      header_of (Some (customizeUserAgent opts)) "User-Agent" = agent (" " +:+ token))
  /\ ((forall ua, header_of opts "User-Agent" <> Some (Http.HString ua)) ->
      header_of (Some (customizeUserAgent opts)) "User-Agent" = agent "").
Proof.
  intros agent Htoken. subst agent. simpl.
  rewrite customizeUserAgent_agent.
  split; [| split].
  - intros ->. by rewrite split_space_first_token.
  - intros ->. by rewrite split_space_first_whole.
  - intros Hnone. destruct (header_of opts "User-Agent") as [[ua | items] |];
      [by destruct (Hnone ua) | reflexivity | reflexivity].
Qed.

Lemma number_or_truthy (x : option Js.number) (d : Js.number) :
  Js.truthy_number d = true -> Js.truthy_number (Js.number_or x d) = true.
Proof.
  intros Hd. unfold Js.number_or.
  destruct x as [n |]; [| exact Hd].
  by destruct (Js.truthy_number n) eqn:Hn.
Qed.

Lemma prefix_app (a x : string) : String.prefix a (a +:+ x) = true.
Proof.
  induction a as [| c a IH]; [by destruct x |].
  change (String.prefix (String c a) (String c (a +:+ x)) = true).
  simpl. by destruct (ascii_dec c c).
Qed.

Lemma plugin_request_intro (opts : option Http.options) (t : Js.number) :
  Js.truthy_number t = true ->
  plugin_request {| Http.headers := Http.headers (customizeUserAgent opts);
                    Http.timeout := Some t |}.
Proof.
  intros Ht. split; [| by exists t].
  pose proof (customizeUserAgent_agent opts) as Hagent.
  unfold header_of in *. simpl in *.
  eexists. split; [exact Hagent |].
  change (pkg.name +:+ "/" +:+ pkg.version +:+ ?x)
    with ("magda-auth-okta/1.1.1" +:+ x).
  apply prefix_app.
Qed.

(** X5: every request the library sends goes out as the plugin wants
    it.  Whatever [createOpenIdClient] ends in (a client, a rejected
    discovery, an issuer that is no string), the [Issuer] hook is
    installed by then, and it and the hook of a created client both
    turn any request options into ones whose user agent starts with
    the plugin's name and version and whose timeout is a number other
    than 0 and [NaN]. *)
Theorem hooks_shape_every_request (options : AuthPluginRouterOptions) (st : State) :
  let out := createOpenIdClient options st in
  (exists hook,
     Issuer_http_options (snd out) = Some hook
     /\ forall opts, plugin_request (hook opts))
  /\ forall client, fst out = inr client ->
       forall opts, plugin_request (http_options client opts).
Proof.
  unfold createOpenIdClient, issuer_string.
  assert (Hdefault : Js.truthy_number OKTA_DEFAULT_TIMEOUT = true) by reflexivity.
  destruct (issuer options) as [| | url | n | b]; run;
    try (split; [eexists; split; [reflexivity |];
                 intros opts; by apply plugin_request_intro, number_or_truthy
                | intros client [=]]).
  destruct (discover (discoveryUrl url)) as [err | iss]; run.
  - split; [| intros client [=]].
    eexists. split; [reflexivity |].
    intros opts. by apply plugin_request_intro, number_or_truthy.
  - split.
    + eexists. split; [reflexivity |].
      intros opts. by apply plugin_request_intro, number_or_truthy.
    + intros client [= <-] opts. simpl.
      by apply plugin_request_intro, number_or_truthy.
Qed.


(** A router that the constructor returns closes over the options. *)
Lemma constructed_router_binding_aux (options : AuthPluginRouterOptions)
    (st st' : State) (r : Router) :
  createAuthPluginRouter options st = (inr r, st') -> router_options r = options.
Proof.
  unfold createAuthPluginRouter.
  destruct (Js.truthy (clientId options)); simpl; [| intros [=]].
  destruct (Js.truthy (clientSecret options)); simpl; [| intros [=]].
  destruct (negb (Js.truthy (issuer options)) || negb (Js.is_string (issuer options)));
    [intros [=] |].
  unfold bind. destruct (createOpenIdClient options st) as [[err | client] st0];
    [intros [=] |].
  run. by intros [= <- _].
Qed.

(** X7: a router that the constructor returns is bound to the
    provider discovery answered with and to the configured client id
    and secret; construction registered the strategy once and left the
    session alone. *)
Theorem constructed_router_binding (options : AuthPluginRouterOptions)
    (st st' : State) (r : Router) :
  createAuthPluginRouter options st = (inr r, st') ->
  exists url iss,
    issuer options = Js.Str url
    /\ discover (discoveryUrl url) = inr iss
    /\ router_options r = options
    /\ client_issuer (router_client r) = iss
    /\ client_id (metadata (router_client r)) = clientId options
    /\ client_secret (metadata (router_client r)) = clientSecret options
    /\ store st' = store st /\ user st' = user st
    /\ count is_passport_use (trace st') = S (count is_passport_use (trace st)).
Proof.
  unfold createAuthPluginRouter.
  destruct (Js.truthy (clientId options)); simpl; [| intros [=]].
  destruct (Js.truthy (clientSecret options)); simpl; [| intros [=]].
  destruct (Js.truthy (issuer options)); simpl; [| intros [=]].
  destruct (issuer options) as [| | url | n | b] eqn:Hvalue; simpl;
    try (intros [=]; fail).
  unfold createOpenIdClient, issuer_string. rewrite Hvalue. run.
  destruct (discover (discoveryUrl url)) as [err | iss] eqn:Hdiscover; run;
    [intros [=] |].
  intros [= <- <-]. exists url, iss. simpl.
  split; [reflexivity |]. split; [exact Hdiscover |].
  repeat (split; [reflexivity |]).
  rewrite !count_app. generalize (count is_passport_use (trace st)).
  intros n. unfold count. simpl. lia.
Qed.

(** X8: the scope that Initiate asks the provider for is never empty:
    it is the configured scope when that is a non-empty string, and
    "openid profile email" when it is absent or empty. *)
Theorem initiate_scope_never_empty (options : AuthPluginRouterOptions)
    (st st' : State) (r : Router) (req : Request) (session : option SessionUser) :
  createAuthPluginRouter options st = (inr r, st') ->
  exists asked state,
    trace (snd (handle r Initiate req (arrive session)))
    = [EvAuthenticate STRATEGY_NAME
         {| opt_scope := Some asked; opt_state := Some state;
            failWithError := false |}]
    /\ asked <> ""
    /\ (forall configured,
          scope options = Some configured -> configured <> "" -> asked = configured)
    /\ (scope options = None \/ scope options = Some "" ->
        asked = "openid profile email").
Proof.
  unfold createAuthPluginRouter.
  destruct (Js.truthy (clientId options)); simpl; [| intros [=]].
  destruct (Js.truthy (clientSecret options)); simpl; [| intros [=]].
  destruct (negb (Js.truthy (issuer options)) || negb (Js.is_string (issuer options)));
    [intros [=] |].
  unfold bind. destruct (createOpenIdClient options st) as [[err | client] st0];
    [intros [=] |].
  run. intros [= <- _]. simpl.
  eexists. eexists. split; [reflexivity |].
  destruct (scope options) as [[| c s] |]; simpl.
  - split; [discriminate |]. split; [| reflexivity].
    intros configured [= <-] Hne. contradiction.
  - split; [discriminate |]. split.
    + by intros configured [= <-] _.
    + intros [Hnone | Hempty]; discriminate.
  - split; [discriminate |]. split; [| reflexivity].
    intros configured Hnone. discriminate Hnone.
Qed.

(** X9: the destination always comes out of [getAbsoluteUrl], called
    with the base URL that [determineRedirectUrl] was given and no
    queries; what goes in is the [redirect] parameter when it is a
    non-empty string and the default in every other case (no
    parameter, an empty one, a repeated one, a nested one); no other
    parameter of the request matters. *)
Theorem determineRedirectUrl_cases (req req' : Request) (fallback : string)
    (base : option string) :
  (forall redirect,
     query req !! "redirect" = Some (QString redirect) -> redirect <> "" ->
     determineRedirectUrl req fallback base = getAbsoluteUrl redirect base [])
  /\ ((forall redirect,
         query req !! "redirect" = Some (QString redirect) -> redirect = "") ->
      determineRedirectUrl req fallback base = getAbsoluteUrl fallback base [])
  /\ (query req' !! "redirect" = query req !! "redirect" ->
      determineRedirectUrl req' fallback base = determineRedirectUrl req fallback base).
Proof.
  unfold determineRedirectUrl. split; [| split].
  - intros redirect -> Hne. by destruct redirect.
  - intros Hempty.
    destruct (query req !! "redirect") as [[redirect | items | fields] |];
      try reflexivity.
    by rewrite (Hempty redirect eq_refl).
  - by intros ->.
Qed.

(** X10: the redirect URI of the client is one URI, and the external
    URL alone decides it: two constructions with the same external URL
    bind their clients to the same redirect URI, whatever the plugin
    key, the issuer and the other options are. *)
Theorem redirect_uri_from_external_url_only (o1 o2 : AuthPluginRouterOptions)
    (st1 st2 st1' st2' : State) (c1 c2 : Client) :
  createOpenIdClient o1 st1 = (inr c1, st1') ->
  createOpenIdClient o2 st2 = (inr c2, st2') ->
  externalUrl o1 = externalUrl o2 ->
  redirect_uris (metadata c1) = redirect_uris (metadata c2)
  /\ length (redirect_uris (metadata c1)) = 1%nat.
Proof.
  intros H1' H2' Hexternal.
  destruct (createOpenIdClient_inv _ _ _ _ H1') as (-> & _).
  destruct (createOpenIdClient_inv _ _ _ _ H2') as (-> & _).
  by rewrite Hexternal.
Qed.

(** X11: the whole successful Complete.  With a non-empty email in
    the claims and a resolver that resolves, the resolver is asked
    once, for the profile projected from the claims (subject, names,
    that one email) under the plugin key; the record that becomes the
    session is the resolved token with the provider marker (plugin key,
    the token set of the exchange, the logout URL if configured); it
    replaces whatever session the request came with, and the browser
    is sent on with [redirectOnSuccess]. *)
Theorem complete_success (r : Router) (req : Request) (tokens : TokenSet)
    (profile : option Claims) (session : option SessionUser)
    (address : string) (token : UserToken) :
  let options := router_options r in
  let plugin := key (authPluginConfig options) in
  let userData :=
    {| profile_id := profile ≫= sub; provider := plugin;
       displayName := profile ≫= name; familyName := profile ≫= family_name;
       givenName := profile ≫= given_name; emails := [address] |} in
  let u :=
    {| userToken := token;
       authPlugin :=
         Some {| plugin_key := plugin; tokenSet := Some tokens;
                 logoutUrl :=
                   if explicitLogout (authPluginConfig options)
                   then Some ("/auth/plugin/" +:+ plugin +:+ "/logout")
                   else None |} |} in
  profile ≫= email = Some address -> address <> "" ->
  createOrGetUserToken (authorizationApi options) userData plugin = inr token ->
  handle r (Complete (inr (tokens, profile))) req (arrive session)
  = (inr tt,
     {| store := Some u; user := Some u; Issuer_http_options := None;
        trace :=
          [EvAuthenticate STRATEGY_NAME
             {| opt_scope := None; opt_state := None; failWithError := true |};
           EvCreateOrGetUserToken userData plugin;
           EvLogIn u;
           EvRedirectOnSuccess (query req !! "state")] |}).
Proof.
  intros options plugin userData u Hemail Haddress Hresolve.
  assert (Hprofile : profile_email profile = Some address).
  { unfold profile_email. destruct profile as [claims |]; [| discriminate].
    simpl in Hemail. rewrite Hemail. by destruct address. }
  run. unfold verify. rewrite Hprofile. run.
  fold options. fold plugin. fold userData. rewrite Hresolve. reflexivity.
Qed.



(** X13: login and logout fit together.  The session that a
    successful Complete leaves always carries the token set of that
    exchange, so the next Logout-initiate never takes the direct
    redirect: it destroys the session and sends the browser to the
    provider's end-session URL with that token set as the hint. *)
Theorem login_then_logout (r : Router) (login logout : Request)
    (tokens : TokenSet) (profile : option Claims)
    (session : option SessionUser) (u : SessionUser) :
  let options := router_options r in
  let after := snd (handle r (Complete (inr (tokens, profile))) login (arrive session)) in
  EvLogIn u ∈ trace after ->
  trace (snd (handle r LogoutInitiate logout (arrive (store after))))
  = [EvDestroyMagdaSession (sessionCookieOptions options);
     EvRedirect
       (endSessionUrl (router_client r)
          {| id_token_hint := tokens;
             post_logout_redirect_uri :=
               getAbsoluteUrl
                 ("/auth/plugin/" +:+ key (authPluginConfig options)
                    +:+ "/logout/return")
                 (Some (externalUrl options))
                 [("redirect",
                   determineRedirectUrl logout (authPluginRedirectUrl options)
                     None)] |})].
Proof.
  intros options after. subst after options. run.
  unfold verify. destruct (profile_email profile) as [address |]; run.
  2: { intros Hin. in_trace Hin. }
  destruct (createOrGetUserToken _ _ _) as [err | token]; run.
  { intros Hin. in_trace Hin. }
  intros _. reflexivity.
Qed.

(** X14: a whole logout.  Whatever session Logout-initiate found,
    the Logout-return that follows finds none: it does not throw, it
    does not destroy again (one destroy in the two requests together),
    and it redirects once; when the request carries back the nested
    destination of Logout-initiate, a non-empty string, the browser
    ends at that destination resolved against the external URL. *)
Theorem logout_flow (r : Router) (initiate back : Request)
    (session : option SessionUser) :
  let options := router_options r in
  let first := snd (handle r LogoutInitiate initiate (arrive session)) in
  let second := handle r LogoutReturn back (arrive (store first)) in
  let nested := determineRedirectUrl initiate (authPluginRedirectUrl options) None in
  fst second = inr tt
  /\ store (snd second) = None
  /\ count is_destroy (trace first ++ trace (snd second)) = 1%nat
  /\ count is_redirect (trace (snd second)) = 1%nat
  /\ (query back !! "redirect" = Some (QString nested) -> nested <> "" ->
      trace (snd second)
      = [EvRedirect (getAbsoluteUrl nested (Some (externalUrl options)) [])]).
Proof.
  intros options first second nested.
  assert (Hstore : store first = None).
  { subst first. run. by destruct ((session ≫= authPlugin) ≫= tokenSet). }
  subst second. rewrite Hstore.
  split; [reflexivity |]. split; [reflexivity |].
  split.
  { subst first. run. by destruct ((session ≫= authPlugin) ≫= tokenSet). }
  split; [reflexivity |].
  intros Hback Hnested. run. unfold determineRedirectUrl at 1. rewrite Hback.
  fold nested. by destruct nested.
Qed.



(** X17: moving the choice of the destination into
    [determineRedirectUrl] kept the [state] of Initiate: for routers
    that the two copies build from the same options, the later [/]
    passes [passport.authenticate] the state that the earlier [/]
    computes inline. *)
Theorem initiate_state_same_in_both_copies (options : AuthPluginRouterOptions)
    (st st' st0 st0' : State) (r : Router) (r0 : LegacyRouter.Router)
    (req : Request) (session : option SessionUser) :
  createAuthPluginRouter options st = (inr r, st') ->
  LegacyRouter.createAuthPluginRouter options st0 = (inr r0, st0') ->
  trace (snd (handle r Initiate req (arrive session)))
  = [EvAuthenticate STRATEGY_NAME
       {| opt_scope := Some (router_scope r);
          opt_state := Some (LegacyRouter.root_state r0 req);
          failWithError := false |}].
Proof.
  intros Hlater Hlegacy.
  pose proof (constructed_router_binding_aux _ _ _ _ Hlater) as Hoptions.
  assert (Hr0 : LegacyRouter.legacy_externalUrl r0 = externalUrl options
                /\ LegacyRouter.legacy_resultRedirectionUrl r0
                   = getAbsoluteUrl (authPluginRedirectUrl options)
                       (Some (externalUrl options)) []).
  { revert Hlegacy. unfold LegacyRouter.createAuthPluginRouter.
    destruct (Js.truthy (clientId options)); simpl; [| intros [=]].
    destruct (Js.truthy (clientSecret options)); simpl; [| intros [=]].
    destruct (Js.truthy (issuer options)); simpl; [| intros [=]].
    unfold bind.
    destruct (Legacy.createOpenIdClient options st0) as [[err | client] st1];
      [intros [=] |].
    run. by intros [= <- _]. }
  destruct Hr0 as [Hexternal Hdefault].
  run. unfold LegacyRouter.root_state, determineRedirectUrl.
  rewrite Hoptions, Hexternal, Hdefault. reflexivity.
Qed.

(** X18: the two copies shape the library's requests alike.  For
    the same options, the clients they create carry the same
    credentials and clock tolerance, and their hooks and the [Issuer]
    hooks they install turn any request options into the same ones. *)
Theorem clients_shape_requests_alike (options : AuthPluginRouterOptions)
    (st st' st0 st0' : State) (c c0 : Client) :
  createOpenIdClient options st = (inr c, st') ->
  Legacy.createOpenIdClient options st0 = (inr c0, st0') ->
  client_id (metadata c) = client_id (metadata c0)
  /\ client_secret (metadata c) = client_secret (metadata c0)
  /\ clock_tolerance c = clock_tolerance c0
  /\ (forall opts, http_options c opts = http_options c0 opts)
  /\ exists hook hook0,
      Issuer_http_options st' = Some hook
      /\ Issuer_http_options st0' = Some hook0
      /\ forall opts, hook opts = hook0 opts.
Proof.
  unfold createOpenIdClient, Legacy.createOpenIdClient, issuer_string.
  destruct (issuer options) as [| | url | n | b]; run; try (intros [=]; fail).
  destruct (discover (discoveryUrl url)) as [err | iss]; run; [intros [=] |].
  intros [= <- <-].
  destruct (discover (Legacy.discoveryUrl url)) as [err0 | iss0]; run; [intros [=] |].
  intros [= <- <-]. simpl.
  repeat (split; [reflexivity |]).
  eexists. eexists. repeat split; reflexivity.
Qed.


End Coverage.

Section CoverageDeployed.
Import Deployment.

(** The Okta issuer with and without the slash: one discovery URL. *)
Lemma discovery_url_normalized_witness :
  let url := "https://dev-1.okta.com/oauth2/default" in
  let asked :=
    [EvDiscover "https://dev-1.okta.com/oauth2/default/.well-known/openid-configuration"] in
  ends_with_slash url = false
  /\ trace (snd (createOpenIdClient (options "okta" true) boot)) = asked
  /\ trace (snd (createOpenIdClient
                   (with_issuer (url +:+ "/") (options "okta" true)) boot)) = asked.
Proof.
  split; [reflexivity |].
  exact (discovery_url_normalized (options "okta" true)
           (with_issuer ("https://dev-1.okta.com/oauth2/default" +:+ "/")
              (options "okta" true))
           boot "https://dev-1.okta.com/oauth2/default" eq_refl eq_refl eq_refl).
Defined.

(** The user agent of [openid-client] 3.12.2 loses its link. *)
Lemma customizeUserAgent_first_token_witness :
  let proposed :=
    Some {| Http.headers :=
              Some {[ "User-Agent" :=
                        Http.HString
                          "openid-client/3.12.2 (https://github.com/panva/node-openid-client)" ]};
            Http.timeout := Some (Js.Num 3500) |} in
  no_space "openid-client/3.12.2" = true
  /\ header_of (Some (customizeUserAgent proposed)) "User-Agent"
     = Some (Http.HString
               "magda-auth-okta/1.1.1 openid-client/3.12.2 node/12.22.12 linux/5.4.0").
Proof.
  split; [reflexivity |].
  refine (proj1 (customizeUserAgent_first_token _ "openid-client/3.12.2"
                   "(https://github.com/panva/node-openid-client)" eq_refl) _).
  reflexivity.
Defined.

(** The deployment's router is bound to the discovered provider and
    to the configured client id. *)
Lemma constructed_router_binding_witness :
  exists r st',
    createAuthPluginRouter (options "okta" true) boot = (inr r, st')
    /\ client_issuer (router_client r) = idp
    /\ client_id (metadata (router_client r)) = Js.Str "0oa1".
Proof.
  eexists. eexists.
  assert (Hcreate : createAuthPluginRouter (options "okta" true) boot = (inr _, _))
    by reflexivity.
  split; [exact Hcreate |].
  destruct (constructed_router_binding _ _ _ _ Hcreate)
    as (url & iss & _ & Hdiscover & _ & Hissuer & Hid & _).
  split; [| exact Hid].
  rewrite Hissuer. simpl in Hdiscover. by injection Hdiscover as <-.
Defined.

(** No scope configured: Initiate asks for "openid profile email". *)
Lemma initiate_scope_never_empty_witness :
  exists r st' state,
    createAuthPluginRouter (options "okta" true) boot = (inr r, st')
    /\ trace (snd (handle r Initiate (request [("redirect", QString "/dashboard")])
                     (arrive None)))
       = [EvAuthenticate "okta-oidc"
            {| opt_scope := Some "openid profile email"; opt_state := Some state;
               failWithError := false |}].
Proof.
  eexists. eexists.
  assert (Hcreate : createAuthPluginRouter (options "okta" true) boot = (inr _, _))
    by reflexivity.
  destruct (initiate_scope_never_empty _ _ _ _
              (request [("redirect", QString "/dashboard")]) None Hcreate)
    as (asked & state & Htrace & _ & _ & Hdefault).
  exists state. split; [exact Hcreate |].
  rewrite Htrace, (Hdefault (or_introl eq_refl)). reflexivity.
Defined.

(** A repeated [redirect] parameter counts as none. *)
Lemma determineRedirectUrl_cases_witness :
  let req := request [("redirect", QArray ["/a"; "/b"])] in
  determineRedirectUrl req "/sign-in-redirect" (Some "https://example.org")
  = "https://example.org/sign-in-redirect".
Proof.
  refine (proj1 (proj2 (determineRedirectUrl_cases
                          (request [("redirect", QArray ["/a"; "/b"])])
                          (request []) "/sign-in-redirect"
                          (Some "https://example.org"))) _).
  intros redirect Hfound. discriminate Hfound.
Defined.

(** The plugin keys "okta" and "okta-sso" behind one external URL:
    one redirect URI. *)
Lemma redirect_uri_from_external_url_only_witness :
  exists c1 c2 st1 st2,
    createOpenIdClient (options "okta" true) boot = (inr c1, st1)
    /\ createOpenIdClient (options "okta-sso" false) boot = (inr c2, st2)
    /\ redirect_uris (metadata c1) = redirect_uris (metadata c2).
Proof.
  eexists. eexists. eexists. eexists.
  assert (H1 : createOpenIdClient (options "okta" true) boot = (inr _, _))
    by reflexivity.
  assert (H2 : createOpenIdClient (options "okta-sso" false) boot = (inr _, _))
    by reflexivity.
  split; [exact H1 |]. split; [exact H2 |].
  exact (proj1 (redirect_uri_from_external_url_only _ _ _ _ _ _ _ _ H1 H2 eq_refl)).
Defined.

(** Ada logs in: the resolver is asked for her projected profile and
    the session is hers. *)
Lemma complete_success_witness :
  exists r,
    router (options "okta" true) = Some r
    /\ let req := request [("state", QString "https://example.org/dashboard")] in
       let out :=
         handle r (Complete (inr (tokens, Some (claims (Some "ada@example.org")))))
           req (arrive None) in
       store (snd out) = Some signed_in
       /\ EvCreateOrGetUserToken
            {| profile_id := Some "00u1"; provider := "okta";
               displayName := Some "Ada Lovelace"; familyName := Some "Lovelace";
               givenName := Some "Ada"; emails := ["ada@example.org"] |} "okta"
          ∈ trace (snd out).
Proof.
  eexists. split; [reflexivity |]. cbv zeta.
  rewrite (complete_success _
             (request [("state", QString "https://example.org/dashboard")])
             tokens (Some (claims (Some "ada@example.org"))) None
             "ada@example.org" {| user_id := "u-1" |} eq_refl);
    [| discriminate | reflexivity].
  split; [reflexivity |].
  apply list_elem_of_further, list_elem_of_here.
Defined.

(** Ada logs in and then out: the hint is the token set of her login. *)
Lemma login_then_logout_witness :
  exists r,
    router (options "okta" true) = Some r
    /\ let login := request [("state", QString "https://example.org/dashboard")] in
       let logout := request [] in
       let after :=
         snd (handle r (Complete (inr (tokens, Some (claims (Some "ada@example.org")))))
                login (arrive None)) in
       EvLogIn signed_in ∈ trace after
       /\ trace (snd (handle r LogoutInitiate logout (arrive (store after))))
          = [EvDestroyMagdaSession {| cookie_name := "connect.sid" |};
             EvRedirect
               ("https://dev-1.okta.com/oauth2/default/v1/logout?id_token_hint=idt"
                  +:+ "&post_logout_redirect_uri="
                  +:+ "https://example.org/auth/plugin/okta/logout/return"
                  +:+ "?redirect=/sign-in-redirect")].
Proof.
  eexists. split; [reflexivity |]. cbv zeta.
  lazymatch goal with
  | |- _ ∈ ?events /\ _ => assert (Hin : EvLogIn signed_in ∈ events)
  end.
  { do 2 apply list_elem_of_further. apply list_elem_of_here. }
  split; [exact Hin |].
  exact (login_then_logout _ _ (request []) _ _ _ _ Hin).
Defined.

(** A whole logout of Ada with [redirect=/dashboard]: the browser
    ends at "https://example.org/dashboard". *)
Lemma logout_flow_witness :
  exists r,
    router (options "okta" true) = Some r
    /\ let initiate := request [("redirect", QString "/dashboard")] in
       let back := request [("redirect", QString "/dashboard")] in
       let first := snd (handle r LogoutInitiate initiate (arrive (Some signed_in))) in
       determineRedirectUrl initiate "/sign-in-redirect" None = "/dashboard"
       /\ trace (snd (handle r LogoutReturn back (arrive (store first))))
          = [EvRedirect "https://example.org/dashboard"].
Proof.
  eexists. split; [reflexivity |]. cbv zeta.
  split; [reflexivity |].
  refine (proj2 (proj2 (proj2 (proj2
            (logout_flow _ (request [("redirect", QString "/dashboard")])
               (request [("redirect", QString "/dashboard")]) (Some signed_in)))))
            eq_refl _).
  discriminate.
Defined.


(** Both copies, same deployment, same request: the same state. *)
Lemma initiate_state_same_in_both_copies_witness :
  exists r r0 st' st0',
    createAuthPluginRouter (options "okta" true) boot = (inr r, st')
    /\ LegacyRouter.createAuthPluginRouter (options "okta" true) boot = (inr r0, st0')
    /\ LegacyRouter.root_state r0 (request [("redirect", QString "/dashboard")])
       = "https://example.org/dashboard"
    /\ trace (snd (handle r Initiate (request [("redirect", QString "/dashboard")])
                     (arrive None)))
       = [EvAuthenticate "okta-oidc"
            {| opt_scope := Some "openid profile email";
               opt_state := Some "https://example.org/dashboard";
               failWithError := false |}].
Proof.
  eexists. eexists. eexists. eexists.
  assert (Hlater : createAuthPluginRouter (options "okta" true) boot = (inr _, _))
    by reflexivity.
  assert (Hlegacy :
    LegacyRouter.createAuthPluginRouter (options "okta" true) boot = (inr _, _))
    by reflexivity.
  split; [exact Hlater |]. split; [exact Hlegacy |].
  split; [reflexivity |].
  exact (initiate_state_same_in_both_copies _ _ _ _ _ _ _
           (request [("redirect", QString "/dashboard")]) None Hlater Hlegacy).
Defined.

(** The deployment through both copies: the same clock tolerance
    and the same request options for an empty proposal. *)
Lemma clients_shape_requests_alike_witness :
  exists c c0 st' st0',
    createOpenIdClient (options "okta" true) boot = (inr c, st')
    /\ Legacy.createOpenIdClient (options "okta" true) boot = (inr c0, st0')
    /\ clock_tolerance c = clock_tolerance c0
    /\ http_options c None = http_options c0 None.
Proof.
  eexists. eexists. eexists. eexists.
  assert (Hlater : createOpenIdClient (options "okta" true) boot = (inr _, _))
    by reflexivity.
  assert (Hlegacy : Legacy.createOpenIdClient (options "okta" true) boot = (inr _, _))
    by reflexivity.
  split; [exact Hlater |]. split; [exact Hlegacy |].
  destruct (clients_shape_requests_alike _ _ _ _ _ _ _ Hlater Hlegacy)
    as (_ & _ & Htolerance & Hhook & _).
  split; [exact Htolerance | exact (Hhook None)].
Defined.


End CoverageDeployed.

